(** * mesa/batchrunner.py: parameter sweeps of a step-based model

    A shallow embedding of [BatchRunner] and of the parts of Python, of
    [itertools] and of [pandas] that its methods rely on, followed by the
    properties of the sweep, of the model constructor, of the run driver
    and of the report table. *)

From Stdlib Require Import List ZArith String Ascii Bool Lia Arith.
From Stdlib Require Import Sorted Permutation.
Import ListNotations.

Set Implicit Arguments.
Set Warnings "-register-all".

(** ** Python values, dictionaries, exceptions and calls *)

Module Py.

(** The values that travel through the batch runner: parameter values,
    reporter results, entity identifiers, and the [fixed_values] bundle
    when it is handed to a constructor as one argument. *)
Inductive value : Type :=
| VNone
| VInt (n : Z)
| VStr (s : string)
| VList (items : list value)
| VDict (entries : list (string * value)).

Section value_induction.
Variable P : value -> Prop.
Hypothesis HNone : P VNone.
Hypothesis HInt : forall n, P (VInt n).
Hypothesis HStr : forall s, P (VStr s).
Hypothesis HList : forall items, Forall P items -> P (VList items).
Hypothesis HDict :
  forall entries, Forall (fun kv => P (snd kv)) entries -> P (VDict entries).

Fixpoint value_nested_ind (v : value) : P v :=
  match v with
  | VNone => HNone
  | VInt n => HInt n
  | VStr s => HStr s
  | VList items =>
      HList ((fix go (l : list value) : Forall P l :=
                match l with
                | [] => Forall_nil _
                | x :: l' => Forall_cons _ (value_nested_ind x) (go l')
                end) items)
  | VDict entries =>
      HDict ((fix go (l : list (string * value))
                : Forall (fun kv => P (snd kv)) l :=
                match l with
                | [] => Forall_nil _
                | kv :: l' =>
                    Forall_cons _ (value_nested_ind (snd kv)) (go l')
                end) entries)
  end.
End value_induction.

Fixpoint list_eqb {A : Type} (eqb : A -> A -> bool) (l1 l2 : list A) : bool :=
  match l1, l2 with
  | [], [] => true
  | x :: l1', y :: l2' => eqb x y && list_eqb eqb l1' l2'
  | _, _ => false
  end.

Fixpoint value_eqb (a b : value) {struct a} : bool :=
  match a, b with
  | VNone, VNone => true
  | VInt x, VInt y => Z.eqb x y
  | VStr s, VStr t => String.eqb s t
  | VList l1, VList l2 =>
      (fix go (l1 l2 : list value) : bool :=
         match l1, l2 with
         | [], [] => true
         | x :: l1', y :: l2' => value_eqb x y && go l1' l2'
         | _, _ => false
         end) l1 l2
  | VDict d1, VDict d2 =>
      (fix go (d1 d2 : list (string * value)) : bool :=
         match d1, d2 with
         | [], [] => true
         | (k1, x) :: d1', (k2, y) :: d2' =>
             String.eqb k1 k2 && value_eqb x y && go d1' d2'
         | _, _ => false
         end) d1 d2
  | _, _ => false
  end.

(** Keys of a dictionary are compared with [==]; the class gives the test
    for each type of key used here. *)
Class Key (K : Type) : Type := key_eqb : K -> K -> bool.

#[export] Instance string_key : Key string := String.eqb.
#[export] Instance value_key : Key value := value_eqb.
#[export] Instance tuple_key : Key (list value) := list_eqb value_eqb.

(** *** Dictionaries

    A [dict] keeps its entries in insertion order, and that order is what
    [keys()], [values()] and [items()] iterate in; assigning to a key that
    is present replaces the value where it stands.  The order shows in
    the sweep (the order of the parameters and of the stored records), so
    a dictionary is the list of its entries. *)
Definition dict (K V : Type) : Type := list (K * V).

Section dict_ops.
Context {K V : Type} `{Key K}.

Fixpoint dict_get (k : K) (d : dict K V) : option V :=
  match d with
  | [] => None
  | (k', v) :: d' => if key_eqb k k' then Some v else dict_get k d'
  end.

(** [d[k] = v] *)
Fixpoint dict_set (k : K) (v : V) (d : dict K V) : dict K V :=
  match d with
  | [] => [(k, v)]
  | (k', v') :: d' =>
      if key_eqb k k' then (k', v) :: d' else (k', v') :: dict_set k v d'
  end.

(** [d.update(other)] *)
Definition dict_update (d other : dict K V) : dict K V :=
  fold_left (fun acc kv => dict_set (fst kv) (snd kv) acc) other d.

Definition dict_keys (d : dict K V) : list K := map fst d.
Definition dict_values (d : dict K V) : list V := map snd d.

End dict_ops.

(** Truth value of a dictionary: empty is false. *)
Definition dict_truthy {K V : Type} (d : dict K V) : bool :=
  match d with [] => false | _ :: _ => true end.

(** The built-in types that define [__hash__]: [list] and [dict] do not,
    and a tuple hashes only if each component does. *)
Definition hashable (v : value) : bool :=
  match v with
  | VList _ | VDict _ => false
  | _ => true
  end.

(** *** Exceptions and results *)

(** The text of an exception built with [str.format]: the template and
    the arguments put into its [{}] fields. *)
Record message : Type := Format { template : string; format_args : list value }.

Inductive exn : Type :=
| TypeError
| ValueError (msg : message)
| KeyError (key : string)
| IndexError
| AttributeError
| OtherError (name : string).

(** What evaluating an expression gives: a value, an exception, or no
    answer within the given number of loop iterations. *)
Inductive result (A : Type) : Type :=
| Ok (a : A)
| Raised (e : exn)
| OutOfFuel.
Arguments Ok {A} a.
Arguments Raised {A} e.
Arguments OutOfFuel {A}.

Definition rbind {A B : Type} (r : result A) (f : A -> result B) : result B :=
  match r with
  | Ok a => f a
  | Raised e => Raised e
  | OutOfFuel => OutOfFuel
  end.

(** *** Calling a class with keyword arguments

    [inspect.signature] describes a function by its parameters, each with
    a name, a kind and possibly a default. *)
Inductive param_kind : Type :=
| POSITIONAL_ONLY
| POSITIONAL_OR_KEYWORD
| VAR_POSITIONAL
| KEYWORD_ONLY
| VAR_KEYWORD.

Definition param_kind_eqb (a b : param_kind) : bool :=
  match a, b with
  | POSITIONAL_ONLY, POSITIONAL_ONLY
  | POSITIONAL_OR_KEYWORD, POSITIONAL_OR_KEYWORD
  | VAR_POSITIONAL, VAR_POSITIONAL
  | KEYWORD_ONLY, KEYWORD_ONLY
  | VAR_KEYWORD, VAR_KEYWORD => true
  | _, _ => false
  end.

Record parameter : Type := Param {
  p_name : string;
  p_kind : param_kind;
  p_default : option value
}.

(** A parameter that a keyword argument can be bound to by name. *)
Definition takes_keyword (p : parameter) : bool :=
  match p_kind p with
  | POSITIONAL_OR_KEYWORD | KEYWORD_ONLY => true
  | _ => false
  end.

Definition has_var_keyword (ps : list parameter) : bool :=
  existsb (fun p => param_kind_eqb (p_kind p) VAR_KEYWORD) ps.

(** Calling a class with a dictionary expanded into keywords runs its
    [__init__] on the new object and those keywords: the new object is
    the one positional argument.  [bind_receiver] gives the parameters that
    remain for the keywords, and whether the receiver took a named slot. *)
Definition bind_receiver (ps : list parameter)
  : result (option string * list parameter) :=
  match ps with
  | [] => Raised TypeError
  | p :: rest =>
      match p_kind p with
      | POSITIONAL_ONLY => Ok (None, rest)
      | POSITIONAL_OR_KEYWORD => Ok (Some (p_name p), rest)
      | VAR_POSITIONAL => Ok (None, ps)
      | KEYWORD_ONLY | VAR_KEYWORD => Raised TypeError
      end
  end.

(** Each keyword goes to the parameter of its name, or into the
    variable-keyword parameter when there is one and no named parameter takes it; a keyword
    naming the receiver's slot, or one nobody takes, is a [TypeError]. *)
Fixpoint bind_keywords (receiver : option string) (ps : list parameter)
    (kwargs : dict string value) (named extra : dict string value)
  : result (dict string value * dict string value) :=
  match kwargs with
  | [] => Ok (named, extra)
  | (k, v) :: kwargs' =>
      if match receiver with Some r => String.eqb k r | None => false end
      then Raised TypeError
      else if existsb (fun p => takes_keyword p && String.eqb (p_name p) k) ps
      then bind_keywords receiver ps kwargs' (dict_set k v named) extra
      else if has_var_keyword ps
      then bind_keywords receiver ps kwargs' named (dict_set k v extra)
      else Raised TypeError
  end.

(** The value of every parameter, in declaration order: the keyword given,
    else the default, else a [TypeError] for a missing argument; the
    variable-positional parameter receives nothing and the variable-keyword
    parameter the keywords left over. *)
Fixpoint bind_parameters (ps : list parameter)
    (named extra : dict string value) : result (dict string value) :=
  match ps with
  | [] => Ok []
  | p :: ps' =>
      rbind
        (match p_kind p with
         | VAR_POSITIONAL => Ok (VList [])
         | VAR_KEYWORD => Ok (VDict extra)
         | POSITIONAL_ONLY =>
             match p_default p with
             | Some v => Ok v
             | None => Raised TypeError
             end
         | POSITIONAL_OR_KEYWORD | KEYWORD_ONLY =>
             match dict_get (p_name p) named, p_default p with
             | Some v, _ => Ok v
             | None, Some v => Ok v
             | None, None => Raised TypeError
             end
         end)
        (fun v =>
           rbind (bind_parameters ps' named extra)
                 (fun bound => Ok ((p_name p, v) :: bound)))
  end.

(** The arguments [__init__] sees, the receiver apart. *)
Definition bind_call (ps : list parameter) (kwargs : dict string value)
  : result (dict string value) :=
  rbind (bind_receiver ps) (fun '(receiver, ps') =>
  rbind (bind_keywords receiver ps' kwargs [] []) (fun '(named, extra) =>
  bind_parameters ps' named extra)).

(** *** Iteration

    [hasattr(v, "__iter__")]: strings, lists and dictionaries iterate,
    numbers and [None] do not. *)
Definition has_iter (v : value) : bool :=
  match v with
  | VStr _ | VList _ | VDict _ => true
  | VNone | VInt _ => false
  end.

(** [isinstance(v, str)] *)
Definition is_str (v : value) : bool :=
  match v with
  | VStr _ => true
  | _ => false
  end.

(** The sequence [iter(v)] runs through: the items of a list, the keys of
    a dictionary, the characters of a string.  The other values do not
    iterate and are given no element. *)
Definition iterate (v : value) : list value :=
  match v with
  | VList items => items
  | VDict entries => map (fun kv => VStr (fst kv)) entries
  | VStr s => map (fun c => VStr (String c EmptyString)) (list_ascii_of_string s)
  | VNone | VInt _ => []
  end.

(** [dict(pairs)]: later pairs win, the first occurrence fixes the place. *)
Definition dict_of_pairs {K V : Type} `{Key K} (pairs : list (K * V))
  : dict K V :=
  fold_left (fun acc kv => dict_set (fst kv) (snd kv) acc) pairs [].

(** [sorted(xs)]: a stable sort; [insert_sorted] puts an element before
    the first one it is not greater than. *)
Fixpoint insert_sorted {A : Type} (leb : A -> A -> bool) (x : A)
    (l : list A) : list A :=
  match l with
  | [] => [x]
  | y :: l' => if leb x y then x :: l else y :: insert_sorted leb x l'
  end.

Definition sorted {A : Type} (leb : A -> A -> bool) (l : list A) : list A :=
  fold_right (insert_sorted leb) [] l.

(** [set(xs)] as the list of the distinct elements, first occurrences. *)
Fixpoint distinct {K : Type} `{Key K} (l : list K) : list K :=
  match l with
  | [] => []
  | x :: l' => x :: filter (fun y => negb (key_eqb y x)) (distinct l')
  end.

Definition mem {K : Type} `{Key K} (x : K) (l : list K) : bool :=
  existsb (key_eqb x) l.

(** The keys of a dictionary after an assignment to [k]. *)
Definition add_key {K : Type} `{Key K} (ks : list K) (k : K) : list K :=
  if mem k ks then ks else ks ++ [k].

(** The test of a key type decides equality. *)
Class KeyLaws (K : Type) `{Key K} : Prop :=
  key_eqb_eq : forall a b : K, key_eqb a b = true <-> a = b.
Arguments KeyLaws K {_}.

End Py.

(** ** itertools *)

Module Itertools.

(** [itertools.product] of the pools, as its documentation defines it: start
    from the one empty tuple and extend every tuple built so far by every
    element of the next pool. *)
Definition product {A : Type} (pools : list (list A)) : list (list A) :=
  fold_left
    (fun result pool => flat_map (fun x => map (fun y => x ++ [y]) pool) result)
    pools [[]].

End Itertools.

(** ** pandas *)

Module Pandas.
Import Py.

(** A cell holds a value or the missing-value marker ([NaN]). *)
Definition cell : Type := option value.

(** A table: the column labels in order, and the rows in order, each row
    with one cell per column. *)
Record DataFrame : Type := {
  columns : list string;
  rows : list (list cell)
}.

(** The cell of a row under a label. *)
Definition row_get (cols : list string) (row : list cell) (c : string) : cell :=
  match dict_get c (combine cols row) with
  | Some x => x
  | None => None
  end.

(** [pd.DataFrame(records)] for a list of dictionaries: the columns are
    the keys of all records, each once; a record without a key leaves the
    cell missing. *)
Definition record_columns (records : list (dict string value)) : list string :=
  distinct (flat_map dict_keys records).

Definition from_records (records : list (dict string value)) : DataFrame :=
  let cols := record_columns records in
  {| columns := cols;
     rows := map (fun r => map (fun c => dict_get c r) cols) records |}.

(** [df[labels]]: the listed columns in the listed order; a label the
    table does not have is a [KeyError]. *)
Definition select (labels : list string) (df : DataFrame) : result DataFrame :=
  match find (fun c => negb (mem c (columns df))) labels with
  | Some c => Raised (KeyError c)
  | None =>
      Ok {| columns := labels;
            rows := map (fun row => map (row_get (columns df) row) labels)
                        (rows df) |}
  end.

(** The integer a row is ordered by. *)
Definition sort_key (by_ : string) (cols : list string) (row : list cell)
  : option Z :=
  match row_get cols row by_ with
  | Some (VInt n) => Some n
  | _ => None
  end.

Fixpoint sort_keys (by_ : string) (cols : list string) (rws : list (list cell))
  : option (list (Z * list cell)) :=
  match rws with
  | [] => Some []
  | row :: rws' =>
      match sort_key by_ cols row, sort_keys by_ cols rws' with
      | Some n, Some keyed => Some ((n, row) :: keyed)
      | _, _ => None
      end
  end.

(** [df.sort_values(by=label)]: a label that is absent or repeated is an
    error; the rows are put in ascending order of the integers in that
    column.  Columns holding anything but integers are not ordered here
    and give a [TypeError]. *)
Definition sort_values (by_ : string) (df : DataFrame) : result DataFrame :=
  match count_occ string_dec (columns df) by_ with
  | O => Raised (KeyError by_)
  | S O =>
      match sort_keys by_ (columns df) (rows df) with
      | Some keyed =>
          Ok {| columns := columns df;
                rows := map snd
                          (sorted (fun a b => Z.leb (fst a) (fst b)) keyed) |}
      | None => Raised TypeError
      end
  | S (S _) =>
      Raised (ValueError (Format "The column label '{}' is not unique." [VStr by_]))
  end.

End Pandas.

(** ** The model and entity contract *)

Module Mesa.
Import Py.

(** What the batch runner uses of a model and of its entities:
    [model.running], [model.schedule.steps], [model.step()],
    [model.schedule.agents] and [agent.unique_id].  A model object is
    changed in place by [step]; here the changed model is returned. *)
Class ModelAPI (Model Agent : Type) : Type := {
  running : Model -> bool;
  steps : Model -> Z;
  step : Model -> result Model;
  agents : Model -> list Agent;
  unique_id : Agent -> value
}.

(** A model class: the signature of its [__init__], receiver included, and
    what the body does with the arguments bound to the other parameters. *)
Record model_class (Model : Type) : Type := ModelClass {
  init_signature : list parameter;
  init_body : dict string value -> result Model
}.

(** Calling the class with [kwargs] expanded into keywords. *)
Definition instantiate {Model : Type} (cls : model_class Model)
    (kwargs : dict string value) : result Model :=
  rbind (bind_call (init_signature cls) kwargs) (init_body cls).

End Mesa.

(** ** BatchRunner *)

Module BatchRunner.
Import Py Mesa.

Section batch_runner.
Context {Model Agent : Type} `{ModelAPI Model Agent}.

(** A reporter mapping, or [None]. Reporters are taken to read the model
    or entity they are given without changing it. *)
Definition reporters (X : Type) : Type :=
  option (dict string (X -> result value)).

(** [if self.model_reporters:] *)
Definition reporters_truthy {X : Type} (r : reporters X) : bool :=
  match r with
  | Some d => dict_truthy d
  | None => false
  end.

(** The attributes [__init__] sets once and for all.  [parameter_values]
    holds, for each parameter, the sequence its iterable runs through. *)
Record batch_runner : Type := {
  model_cls : model_class Model;
  parameter_values : dict string (list value);
  fixed_values : dict string value;
  iterations : Z;
  max_steps : Z;
  model_reporters : reporters Model;
  agent_reporters : reporters Agent;
  display_progress : bool
}.

(** A store maps a record key, the tuple of the parameter values, the run
    number and for entities the identifier, to the reported variables. *)
Definition store : Type := dict (list value) (dict string value).

(** The attributes [run_all] writes to.  [__init__] creates each one with
    its reporters, and [run_all] touches it under the same test. *)
Record stores : Type := Stores {
  model_vars : store;
  agent_vars : store
}.

Definition make_iterable (val : value) : value :=
  if has_iter val && negb (is_str val) then val else VList [val].

Definition init (model_cls : model_class Model)
    (variable_parameters : dict string value)
    (fixed_parameters : option (dict string value))
    (iterations max_steps : Z)
    (model_reporters : reporters Model) (agent_reporters : reporters Agent)
    (display_progress : bool) : batch_runner * stores :=
  ({| model_cls := model_cls;
      parameter_values :=
        map (fun pv => (fst pv, iterate (make_iterable (snd pv))))
            variable_parameters;
      fixed_values :=
        match fixed_parameters with
        | Some d => d
        | None => []
        end;
      iterations := iterations;
      max_steps := max_steps;
      model_reporters := model_reporters;
      agent_reporters := agent_reporters;
      display_progress := display_progress |},
   {| model_vars := []; agent_vars := [] |}).

(** *** _try_to_init_model *)

Definition valid_types : list param_kind :=
  [POSITIONAL_OR_KEYWORD; VAR_POSITIONAL].

Definition cannot_configure (variable_params fixed : dict string value) : exn :=
  ValueError
    (Format "Cannot configure model with variable params {} and fixed params {}"
            [VDict variable_params; VDict fixed]).

Definition try_to_init_model (self : batch_runner)
    (variable_params : dict string value) : result Model :=
  if negb (dict_truthy (fixed_values self)) then
    instantiate (model_cls self) variable_params
  else
    let kv := dict_update variable_params (fixed_values self) in
    match instantiate (model_cls self) kv with
    | Raised TypeError =>
        match rev (init_signature (model_cls self)) with
        | [] => Raised IndexError
        | last_arg :: _ =>
            if existsb (param_kind_eqb (p_kind last_arg)) valid_types then
              instantiate (model_cls self)
                (dict_set (p_name last_arg) (VDict (fixed_values self))
                          variable_params)
            else
              Raised (cannot_configure variable_params (fixed_values self))
        end
    | outcome => outcome
    end.

(** *** run_model

    The loop runs while the test holds; [fuel] bounds the number of
    iterations the embedding follows. *)
Fixpoint run_model (fuel : nat) (self : batch_runner) (model : Model)
  : result Model :=
  if running model && (steps model <? max_steps self)%Z then
    match fuel with
    | O => OutOfFuel
    | S fuel' => rbind (step model) (run_model fuel' self)
    end
  else Ok model.

(** *** collect_model_vars and collect_agent_vars *)

(** [self.model_reporters.items()] *)
Definition reporter_items {X : Type} (r : reporters X)
  : result (dict string (X -> result value)) :=
  match r with
  | Some d => Ok d
  | None => Raised AttributeError
  end.

Fixpoint run_reporters {X : Type} (items : dict string (X -> result value))
    (x : X) (vars : dict string value) : result (dict string value) :=
  match items with
  | [] => Ok vars
  | (var, reporter) :: rest =>
      rbind (reporter x) (fun v => run_reporters rest x (dict_set var v vars))
  end.

Definition collect_model_vars (self : batch_runner) (model : Model)
  : result (dict string value) :=
  rbind (reporter_items (model_reporters self)) (fun items =>
  run_reporters items model []).

Fixpoint collect_agents (self : batch_runner) (ags : list Agent)
    (agent_vars : dict value (dict string value))
  : result (dict value (dict string value)) :=
  match ags with
  | [] => Ok agent_vars
  | agent :: rest =>
      rbind (reporter_items (agent_reporters self)) (fun items =>
      rbind (run_reporters items agent []) (fun agent_record =>
      if hashable (unique_id agent) then
        collect_agents self rest
          (dict_set (unique_id agent) agent_record agent_vars)
      else Raised TypeError))
  end.

Definition collect_agent_vars (self : batch_runner) (model : Model)
  : result (dict value (dict string value)) :=
  collect_agents self (agents model) [].

(** *** run_all

    The method changes [self.model_vars] and [self.agent_vars] as it goes
    and may leave by an exception, the changes made so far staying in
    place: a computation takes the stores and gives its outcome together
    with the stores as it leaves them. *)
Definition M (A : Type) : Type := stores -> result A * stores.

Definition ret {A : Type} (a : A) : M A := fun st => (Ok a, st).

Definition bind {A B : Type} (c : M A) (k : A -> M B) : M B :=
  fun st =>
    match c st with
    | (Ok a, st') => k a st'
    | (Raised e, st') => (Raised e, st')
    | (OutOfFuel, st') => (OutOfFuel, st')
    end.

Definition lift {A : Type} (r : result A) : M A := fun st => (r, st).

(** [store[key] = record]; a key with an unhashable component is a
    [TypeError]. *)
Definition set_model_vars (key : list value) (record : dict string value)
  : M unit :=
  fun st =>
    if forallb hashable key then
      (Ok tt, {| model_vars := dict_set key record (model_vars st);
                 agent_vars := agent_vars st |})
    else (Raised TypeError, st).

Definition set_agent_vars (key : list value) (record : dict string value)
  : M unit :=
  fun st =>
    if forallb hashable key then
      (Ok tt, {| model_vars := model_vars st;
                 agent_vars := dict_set key record (agent_vars st) |})
    else (Raised TypeError, st).

(** [for agent_id, reports in agent_vars.items(): ...] *)
Fixpoint store_agent_vars (param_values : list value) (run_count : Z)
    (items : dict value (dict string value)) : M unit :=
  match items with
  | [] => ret tt
  | (agent_id, reports) :: rest =>
      bind (set_agent_vars (param_values ++ [VInt run_count; agent_id]) reports)
           (fun _ => store_agent_vars param_values run_count rest)
  end.

(** The body of [for _ in range(self.iterations)], up to the increment of
    [run_count]: run the model, then collect and store the results. *)
Definition run_iteration (fuel : nat) (self : batch_runner)
    (param_values : list value) (run_count : Z) (model : Model) : M Model :=
  bind (lift (run_model fuel self model)) (fun model' =>
  bind (if reporters_truthy (model_reporters self) then
          bind (lift (collect_model_vars self model')) (fun record =>
          set_model_vars (param_values ++ [VInt run_count]) record)
        else ret tt) (fun _ =>
  bind (if reporters_truthy (agent_reporters self) then
          bind (lift (collect_agent_vars self model')) (fun agent_vars =>
          store_agent_vars param_values run_count agent_vars)
        else ret tt) (fun _ =>
  ret model'))).

(** [for _ in range(n)]; gives [run_count] and the model as the loop
    leaves them. *)
Fixpoint run_iterations (fuel : nat) (self : batch_runner)
    (param_values : list value) (n : nat) (run_count : Z) (model : Model)
  : M (Z * Model) :=
  match n with
  | O => ret (run_count, model)
  | S n' =>
      bind (run_iteration fuel self param_values run_count model)
           (fun model' =>
      run_iterations fuel self param_values n' (run_count + 1)%Z model')
  end.

(** [kwargs = dict(zip(params, param_values))] *)
Definition configuration_kwargs (self : batch_runner)
    (param_values : list value) : dict string value :=
  let params := dict_keys (parameter_values self) in
  dict_of_pairs (combine params param_values).

(** [for param_values in list(product(...))] *)
Fixpoint run_configurations (fuel : nat) (self : batch_runner)
    (configurations : list (list value)) (run_count : Z) : M Z :=
  match configurations with
  | [] => ret run_count
  | param_values :: rest =>
      let kwargs := configuration_kwargs self param_values in
      bind (lift (try_to_init_model self kwargs)) (fun model =>
      bind (run_iterations fuel self param_values
              (Z.to_nat (iterations self)) run_count model) (fun after =>
      run_configurations fuel self rest (fst after)))
  end.

(** [list(product(...))] over [self.parameter_values.values()] *)
Definition configurations (self : batch_runner) : list (list value) :=
  let param_ranges := dict_values (parameter_values self) in
  Itertools.product param_ranges.

(** The progress bar only displays and is left out.  Its total is
    computed from one more pass over the parameter sequences, which
    leaves a sequence as it is. *)
Definition run_all (fuel : nat) (self : batch_runner) : M unit :=
  bind (run_configurations fuel self (configurations self) 0%Z)
       (fun _ => ret tt).

(** *** _prepare_report_table *)

Definition prepare_report_table (self : batch_runner) (vars_dict : store)
  : result Pandas.DataFrame :=
  let index_cols := dict_keys (parameter_values self) ++ ["Run"%string] in
  let records :=
    map (fun kv => dict_update (dict_of_pairs (combine index_cols (fst kv)))
                               (snd kv))
        vars_dict in
  let df := Pandas.from_records records in
  let rest_cols :=
    filter (fun c => negb (mem c index_cols)) (distinct (Pandas.columns df)) in
  rbind (Pandas.select (index_cols ++ sorted String.leb rest_cols) df)
        (Pandas.sort_values "Run").

Definition get_model_vars_dataframe (self : batch_runner) (st : stores)
  : result Pandas.DataFrame :=
  prepare_report_table self (model_vars st).

Definition get_agent_vars_dataframe (self : batch_runner) (st : stores)
  : result Pandas.DataFrame :=
  prepare_report_table self (agent_vars st).

End batch_runner.

Arguments batch_runner : clear implicits.

End BatchRunner.

(** ** Concrete models

    Small models and model classes on which the definitions are run. *)

Module Examples.
Import Py Mesa BatchRunner.
Local Open Scope string_scope.
Local Open Scope Z_scope.

(** A model that keeps the arguments it was built from, counts its steps
    and stops by itself when the count reaches [toy_halt]. *)
Record toy_model : Type := Toy {
  toy_args : dict string value;
  toy_steps : Z;
  toy_halt : Z
}.

Definition toy_step (m : toy_model) : toy_model :=
  {| toy_args := toy_args m;
     toy_steps := toy_steps m + 1;
     toy_halt := toy_halt m |}.

(** Its entities are two, identified by 1 and 2. *)
#[export] Instance toy_api : ModelAPI toy_model value := {|
  running := fun m => toy_steps m <? toy_halt m;
  steps := toy_steps;
  step := fun m => Ok (toy_step m);
  agents := fun _ => [VInt 1; VInt 2];
  unique_id := fun a => a
|}.

Definition toy_body (halt : Z) (args : dict string value) : result toy_model :=
  Ok {| toy_args := args; toy_steps := 0; toy_halt := halt |}.

Definition required (name : string) (kind : param_kind) : parameter :=
  {| p_name := name; p_kind := kind; p_default := None |}.

Definition self_param : parameter := required "self" POSITIONAL_OR_KEYWORD.

(** [def __init__(self, a, b, c)] *)
Definition cls_abc : model_class toy_model :=
  {| init_signature :=
       [self_param; required "a" POSITIONAL_OR_KEYWORD;
        required "b" POSITIONAL_OR_KEYWORD; required "c" POSITIONAL_OR_KEYWORD];
     init_body := toy_body 3 |}.

(** [def __init__(self, a, b, **extra)] *)
Definition cls_ab_extra : model_class toy_model :=
  {| init_signature :=
       [self_param; required "a" POSITIONAL_OR_KEYWORD;
        required "b" POSITIONAL_OR_KEYWORD; required "extra" VAR_KEYWORD];
     init_body := toy_body 3 |}.

(** [def __init__(self, a, fixed_params)] *)
Definition cls_a_bundle : model_class toy_model :=
  {| init_signature :=
       [self_param; required "a" POSITIONAL_OR_KEYWORD;
        required "fixed_params" POSITIONAL_OR_KEYWORD];
     init_body := toy_body 3 |}.

(** [def __init__(self, a, *args)] *)
Definition cls_a_args : model_class toy_model :=
  {| init_signature :=
       [self_param; required "a" POSITIONAL_OR_KEYWORD;
        required "args" VAR_POSITIONAL];
     init_body := toy_body 3 |}.

(** [def __init__(self, a)] *)
Definition cls_a : model_class toy_model :=
  {| init_signature := [self_param; required "a" POSITIONAL_OR_KEYWORD];
     init_body := toy_body 3 |}.

Definition report_steps : toy_model -> result value :=
  fun m => Ok (VInt (toy_steps m)).

Definition report_id : value -> result value := fun a => Ok a.

Definition failing_reporter {X : Type} : X -> result value :=
  fun _ => Raised (OtherError "ZeroDivisionError").

Definition runner (cls : model_class toy_model)
    (variable_parameters : dict string value)
    (fixed_parameters : option (dict string value)) (iterations : Z)
    (model_reporters : reporters toy_model) (agent_reporters : reporters value)
  : batch_runner toy_model value :=
  fst (init cls variable_parameters fixed_parameters iterations 1000
            model_reporters agent_reporters true).

Definition no_stores : stores := {| model_vars := []; agent_vars := [] |}.

(** A sweep over a = 1, 2 with 3 runs each, reporting the step count of
    the model and the identifier of each entity. *)
Definition toy_sweep : batch_runner toy_model value :=
  runner cls_a [("a", VList [VInt 1; VInt 2])] None 3
         (Some [("steps", report_steps)]) (Some [("id", report_id)]).

(** The same sweep with an entity-level reporter that raises. *)
Definition toy_sweep_failing_entities : batch_runner toy_model value :=
  runner cls_a [("a", VList [VInt 1; VInt 2])] None 3
         (Some [("steps", report_steps)]) (Some [("id", failing_reporter)]).

(** A sweep over a = 1 for a constructor [(self, a, b, **extra)], with
    the fixed parameters c: 7: no value is given for [b]. *)
Definition toy_sweep_missing_argument : batch_runner toy_model value :=
  runner cls_ab_extra [("a", VList [VInt 1])] (Some [("c", VInt 7)]) 3
         (Some [("steps", report_steps)]) None.

(** A sweep over a = 1 for a constructor [(self, a, b, c)], with the
    fixed parameters z: 7. *)
Definition toy_sweep_unknown_argument : batch_runner toy_model value :=
  runner cls_abc [("a", VList [VInt 1])] (Some [("z", VInt 7)]) 3
         (Some [("steps", report_steps)]) None.

(** A store with two records, the later run first, each reporting a
    variable the other does not. *)
Definition shuffled_store : store :=
  [([VInt 1; VInt 3], [("z", VInt 0)]);
   ([VInt 1; VInt 1], [("b", VInt 0)])].

(** A toy model that has made no step yet and halts after three. *)
Definition fresh_toy : toy_model :=
  {| toy_args := [("a", VInt 1)]; toy_steps := 0; toy_halt := 3 |}.

(** A sweep whose only parameter has no candidate. *)
Definition toy_sweep_no_candidates : batch_runner toy_model value :=
  runner cls_a [("a", VList [])] None 3
         (Some [("steps", report_steps)]) (Some [("id", report_id)]).

(** The example sweep with no iteration. *)
Definition toy_sweep_no_iterations : batch_runner toy_model value :=
  runner cls_a [("a", VList [VInt 1; VInt 2])] None 0
         (Some [("steps", report_steps)]) (Some [("id", report_id)]).

(** The example sweep without reporters. *)
Definition toy_sweep_silent : batch_runner toy_model value :=
  runner cls_a [("a", VList [VInt 1; VInt 2])] None 3 None None.

(** Three model-level reporters, the second of which raises. *)
Definition toy_sweep_failing_second : batch_runner toy_model value :=
  runner cls_a [("a", VList [VInt 1; VInt 2])] None 3
         (Some [("steps", report_steps); ("bad", failing_reporter);
                ("later", report_steps)])
         None.

(** A sweep over single values: a number and a string. *)
Definition single_values : dict string value :=
  [("a", VInt 1); ("name", VStr "abc")].

(** A model that does not run and only lists its entities, which are
    their own identifiers. *)
Record crowd : Type := Crowd { members : list value }.

#[export] Instance crowd_api : ModelAPI crowd value := {|
  running := fun _ => false;
  steps := fun _ => 0;
  step := fun m => Ok m;
  agents := members;
  unique_id := fun a => a
|}.

(** [def __init__(self)], with an entity identified by a list between
    two identified by integers. *)
Definition crowd_cls : model_class crowd :=
  {| init_signature := [self_param];
     init_body := fun _ => Ok (Crowd [VInt 1; VList []; VInt 2]) |}.

Definition crowd_sweep : batch_runner crowd value :=
  fst (init crowd_cls [] None 1 10 None (Some [("id", report_id)]) true).

(** A sweep over a = 1, 2 for a constructor [(self, a)], with the fixed
    parameters z: 7, which the constructor does not take. *)
Definition toy_sweep_overridden : batch_runner toy_model value :=
  runner cls_a [("a", VList [VInt 1; VInt 2])] (Some [("z", VInt 7)]) 3
         (Some [("steps", report_steps)]) None.

(** Two entity-level stores that differ in the identifiers only. *)
Definition entity_store : store :=
  [([VInt 1; VInt 0; VInt 7], [("id", VInt 0)]);
   ([VInt 1; VInt 1; VInt 7], [("id", VInt 0)])].

Definition entity_store_renamed : store :=
  [([VInt 1; VInt 0; VInt 8], [("id", VInt 0)]);
   ([VInt 1; VInt 1; VInt 9], [("id", VInt 0)])].

End Examples.

(** ** Notions the properties are stated with *)

Module Spec.

Section cartesian_product.
Context {A : Type}.

(** The Cartesian product in the conventional order, by recursion on the
    pools: every element of the first pool in turn, and under each one
    the whole product of the remaining pools, so the first component
    varies slowest and the last fastest. *)
Fixpoint cartesian (pools : list (list A)) : list (list A) :=
  match pools with
  | [] => [[]]
  | pool :: pools' =>
      flat_map (fun x => map (cons x) (cartesian pools')) pool
  end.

(** The number of tuples: the product of the sizes of the pools. *)
Fixpoint size (pools : list (list A)) : nat :=
  match pools with
  | [] => 1
  | pool :: pools' => List.length pool * size pools'
  end.

(** The tuple at position [i] read off the digits of [i]: the component in
    a pool moves on by one each time [i] grows by the size of the product
    of the pools after it, which is 1 for the last pool. *)
Fixpoint tuple_at (pools : list (list A)) (i : nat) : option (list A) :=
  match pools with
  | [] => Some []
  | pool :: pools' =>
      match nth_error pool (i / size pools'), tuple_at pools' (i mod size pools') with
      | Some x, Some t => Some (x :: t)
      | _, _ => None
      end
  end.

End cartesian_product.

Section notions.
Import Py Mesa BatchRunner.
Context {Model Agent : Type} `{ModelAPI Model Agent}.

(** The model after [k] calls of its step operation. *)
Fixpoint after_steps (k : nat) (model : Model) : result Model :=
  match k with
  | O => Ok model
  | S k' => rbind (step model) (after_steps k')
  end.

(** The run number of a model-level record key: its last component. *)
Definition run_number (key : list value) : value := last key VNone.

(** The keys one configuration gets in the model-level store when its [n]
    runs are numbered from [run_count] on. *)
Fixpoint iteration_keys (param_values : list value) (n : nat) (run_count : Z)
  : list (list value) :=
  match n with
  | O => []
  | S n' =>
      (param_values ++ [VInt run_count])
        :: iteration_keys param_values n' (run_count + 1)
  end.

(** The keys of a whole sweep: one configuration after the other, the
    numbering going on from one configuration to the next. *)
Fixpoint sweep_keys (configurations : list (list value)) (n : nat)
    (run_count : Z) : list (list value) :=
  match configurations with
  | [] => []
  | param_values :: rest =>
      iteration_keys param_values n run_count
        ++ sweep_keys rest n (run_count + Z.of_nat n)
  end.

(** A model built by the fallback of the constructor: the call on the
    union of the run configuration and the fixed parameters ended in an
    argument mismatch, and the call binding the fixed parameters as one
    value to the name of the last parameter gave the model. *)
Definition built_by_fallback (self : batch_runner Model Agent)
    (variable_params : dict string value) (model : Model) : Prop :=
  exists front last_arg,
    init_signature (model_cls self) = front ++ [last_arg]
    /\ instantiate (model_cls self)
         (dict_update variable_params (fixed_values self)) = Raised TypeError
    /\ instantiate (model_cls self)
         (dict_set (p_name last_arg) (VDict (fixed_values self))
                   variable_params) = Ok model
    /\ try_to_init_model self variable_params = Ok model.

(** A record key as [run_all] builds it: the values of the parameters,
    then the run number, then for an entity its identifier. *)
Definition record_key (params : list string) (key : list value) : Prop :=
  exists param_values run_count rest,
    key = param_values ++ VInt run_count :: rest
    /\ List.length param_values = List.length params.



(** A model whose step operation returns and adds one to the counter. *)
Definition counts_steps : Prop :=
  forall m : Model, exists m', step m = Ok m' /\ (steps m' = steps m + 1)%Z.

(** The model-level keys the runs of a sweep write, if any are written. *)
Definition written_keys (self : batch_runner Model Agent)
    (keys : list (list value)) : list (list value) :=
  if reporters_truthy (model_reporters self) then keys else [].



(** A sweep all of whose parts return: on the configurations the
    constructor gives a model, on the models met ([good] holds of them)
    the run driver returns within the fuel and the reporters return, and
    the parameter values can be part of a key. *)
Record well_behaved (fuel : nat) (self : batch_runner Model Agent)
    (good : Model -> Prop) : Prop := {
  wb_init : forall pv, In pv (configurations self) ->
    exists m, try_to_init_model self (configuration_kwargs self pv) = Ok m
              /\ good m;
  wb_run : forall m, good m ->
    exists m', run_model fuel self m = Ok m' /\ good m';
  wb_model_reporters : forall m, good m ->
    reporters_truthy (model_reporters self) = true ->
    exists record, collect_model_vars self m = Ok record;
  wb_agent_reporters : forall m, good m ->
    reporters_truthy (agent_reporters self) = true ->
    exists items, collect_agent_vars self m = Ok items;
  wb_hashable : forall pv, In pv (configurations self) ->
    forallb hashable pv = true
}.

(** The names under which a reporter mapping reports. *)
Definition reporter_names {X : Type} (r : reporters X) : list string :=
  match r with
  | Some d => dict_keys d
  | None => []
  end.

(** A store entry: its key is a record key and its variables are named
    by reporters. *)
Definition entry_ok (params names : list string)
    (entry : list value * dict string value) : Prop :=
  record_key params (fst entry) /\ incl (dict_keys (snd entry)) names.

(** Stores all of whose entries are such. *)
Definition well_keyed (self : batch_runner Model Agent) (st : stores) : Prop :=
  let params := dict_keys (parameter_values self) in
  Forall (entry_ok params (reporter_names (model_reporters self)))
         (model_vars st)
  /\ Forall (entry_ok params (reporter_names (agent_reporters self)))
            (agent_vars st).

(** A computation that keeps a property of the stores, whatever its
    outcome. *)
Definition preserves {A : Type} (P : stores -> Prop) (c : M A) : Prop :=
  forall st out st', P st -> c st = (out, st') -> P st'.

(** A reported variable and the reporter it comes from: the name of the
    reporter, with the value the reporter returned for [x]. *)
Definition reported {X : Type} (x : X) (item : string * (X -> result value))
    (var : string * value) : Prop :=
  fst var = fst item /\ snd item x = Ok (snd var).

(** A store entry with its key cut after the run number. *)
Definition index_part (params : list string)
    (entry : list value * dict string value)
  : list value * dict string value :=
  (firstn (S (List.length params)) (fst entry), snd entry).




(** Every entity-level record belongs to a run that has its model-level
    record: the key without the identifier is a key of the model-level
    store. *)
Definition entity_keys_extend_model_keys (st : stores) : Prop :=
  forall key, In key (dict_keys (agent_vars st)) ->
              In (removelast key) (dict_keys (model_vars st)).

End notions.
End Spec.

(** * Properties *)

(** ** Facts about values and dictionaries *)

Module PyFacts.
Import Py.

Lemma list_eqb_spec {A : Type} (eqb : A -> A -> bool) :
  (forall a b, reflect (a = b) (eqb a b)) ->
  forall l1 l2, reflect (l1 = l2) (list_eqb eqb l1 l2).
Proof.
  intros Heq l1.
  induction l1 as [|x l1 IH]; intros [|y l2]; simpl;
    try (constructor; congruence).
  destruct (Heq x y) as [->|Hne]; simpl.
  - destruct (IH l2) as [->|Hne]; constructor; congruence.
  - constructor; congruence.
Qed.

Lemma value_eqb_eq : forall a b, value_eqb a b = true <-> a = b.
Proof.
  induction a as [ | n | s | items IH | entries IH ] using value_nested_ind;
    intros [ | m | t | items' | entries' ]; simpl;
    try (split; [discriminate | congruence]);
    try (split; congruence).
  - rewrite Z.eqb_eq. split; congruence.
  - rewrite String.eqb_eq. split; congruence.
  - revert items'.
    induction IH as [|x l Hx _ IHl]; intros [|y l'];
      try (split; [discriminate | congruence]); try (split; congruence).
    rewrite andb_true_iff, Hx.
    specialize (IHl l').
    split.
    + intros [-> H]. apply IHl in H. congruence.
    + intros H. injection H as -> ->. split; [reflexivity|].
      apply IHl. reflexivity.
  - revert entries'.
    induction IH as [|[k x] l Hx _ IHl]; intros [|[k' y] l'];
      try (split; [discriminate | congruence]); try (split; congruence).
    simpl in Hx.
    rewrite !andb_true_iff, String.eqb_eq, Hx.
    specialize (IHl l').
    split.
    + intros [[-> ->] H]. apply IHl in H. congruence.
    + intros H. injection H as -> -> ->. repeat split.
      apply IHl. reflexivity.
Qed.

Lemma value_eqb_spec : forall a b, reflect (a = b) (value_eqb a b).
Proof.
  intros a b. apply iff_reflect. symmetry. apply value_eqb_eq.
Qed.


#[export] Instance string_key_laws : KeyLaws string := String.eqb_eq.
#[export] Instance value_key_laws : KeyLaws value := value_eqb_eq.

#[export] Instance tuple_key_laws : KeyLaws (list value).
Proof.
  intros a b.
  destruct (list_eqb_spec value_eqb value_eqb_spec a b) as [Heq|Hne];
    unfold key_eqb, tuple_key.
  - destruct (list_eqb value_eqb a b) eqn:E; [tauto|].
    destruct (list_eqb_spec value_eqb value_eqb_spec a b); congruence.
  - destruct (list_eqb value_eqb a b) eqn:E; [|split; congruence].
    destruct (list_eqb_spec value_eqb value_eqb_spec a b); congruence.
Qed.

Section dict_facts.
Context {K V : Type} `{KeyLaws K}.

Lemma key_eqb_spec (a b : K) : reflect (a = b) (key_eqb a b).
Proof. apply iff_reflect. symmetry. apply key_eqb_eq. Qed.

Lemma key_eqb_refl (k : K) : key_eqb k k = true.
Proof. destruct (key_eqb_spec k k); congruence. Qed.

Lemma key_eqb_neq (a b : K) : a <> b -> key_eqb a b = false.
Proof. destruct (key_eqb_spec a b); congruence. Qed.

Lemma mem_In (x : K) (l : list K) : mem x l = true <-> In x l.
Proof.
  unfold mem. rewrite existsb_exists. split.
  - intros [y [Hy Heq]]. destruct (key_eqb_spec x y); congruence.
  - intros Hin. exists x. split; [assumption | apply key_eqb_refl].
Qed.

Lemma mem_false (x : K) (l : list K) : mem x l = false <-> ~ In x l.
Proof.
  rewrite <- mem_In. destruct (mem x l); split; congruence.
Qed.



Lemma dict_get_set_same (k : K) (v : V) (d : dict K V) :
  dict_get k (dict_set k v d) = Some v.
Proof.
  induction d as [|[k' v'] d IH]; simpl.
  - now rewrite key_eqb_refl.
  - destruct (key_eqb_spec k k') as [->|Hne]; simpl.
    + now rewrite key_eqb_refl.
    + now rewrite key_eqb_neq.
Qed.

Lemma dict_get_set_other (k k0 : K) (v : V) (d : dict K V) :
  k0 <> k -> dict_get k0 (dict_set k v d) = dict_get k0 d.
Proof.
  intros Hne.
  induction d as [|[k' v'] d IH]; simpl.
  - now rewrite key_eqb_neq.
  - destruct (key_eqb_spec k k') as [->|Hne']; simpl.
    + now rewrite key_eqb_neq.
    + now rewrite IH.
Qed.

(** Assigning to a new key appends it. *)
Lemma dict_set_fresh (k : K) (v : V) (d : dict K V) :
  ~ In k (dict_keys d) -> dict_set k v d = d ++ [(k, v)].
Proof.
  induction d as [|[k' v'] d IH]; simpl; intros Hnin.
  - reflexivity.
  - rewrite key_eqb_neq by intuition congruence.
    rewrite IH by tauto. reflexivity.
Qed.

(** Assigning to a key that is present leaves the keys as they are. *)
Lemma dict_keys_set_present (k : K) (v : V) (d : dict K V) :
  In k (dict_keys d) -> dict_keys (dict_set k v d) = dict_keys d.
Proof.
  induction d as [|[k' v'] d IH]; simpl; intros Hin.
  - contradiction.
  - destruct (key_eqb_spec k k') as [->|Hne]; simpl.
    + reflexivity.
    + rewrite IH; [reflexivity|]. destruct Hin; congruence.
Qed.

(** No assignment removes a key. *)
Lemma dict_keys_set_incl (k k0 : K) (v : V) (d : dict K V) :
  In k0 (dict_keys d) -> In k0 (dict_keys (dict_set k v d)).
Proof.
  induction d as [|[k' v'] d IH]; simpl; intros Hin.
  - contradiction.
  - destruct (key_eqb k k'); simpl; destruct Hin; auto.
Qed.

Lemma dict_keys_set_In (k k0 : K) (v : V) (d : dict K V) :
  In k0 (dict_keys (dict_set k v d)) <-> k0 = k \/ In k0 (dict_keys d).
Proof.
  induction d as [|[k' v'] d IH]; simpl.
  - intuition congruence.
  - destruct (key_eqb_spec k k') as [->|Hne]; simpl.
    + intuition congruence.
    + rewrite IH. intuition congruence.
Qed.

Lemma dict_get_update (k : K) (d other : dict K V) :
  dict_get k (dict_update d other) =
  match dict_get k (dict_update [] other) with
  | Some v => Some v
  | None => dict_get k d
  end.
Proof.
  unfold dict_update.
  assert (Hgen : forall acc acc',
    (forall k, dict_get k acc = match dict_get k acc' with
                                | Some v => Some v
                                | None => dict_get k d
                                end) ->
    dict_get k (fold_left (fun a kv => dict_set (fst kv) (snd kv) a) other acc) =
    match dict_get k (fold_left (fun a kv => dict_set (fst kv) (snd kv) a) other acc') with
    | Some v => Some v
    | None => dict_get k d
    end).
  { induction other as [|[k' v'] other IH]; intros acc acc' Hrel; simpl.
    - apply Hrel.
    - apply IH. intros k0.
      destruct (key_eqb_spec k0 k') as [->|Hne].
      + now rewrite !dict_get_set_same.
      + rewrite !dict_get_set_other by assumption. apply Hrel. }
  apply Hgen. intros k0. reflexivity.
Qed.

End dict_facts.
End PyFacts.

(** ** The parameter expander *)

Module ExpanderProps.
Import Py Mesa BatchRunner PyFacts.

Section product_facts.
Context {A : Type}.

Lemma extend_flat_map (x : list A) (pool : list A) (rest : list (list A)) :
  flat_map (fun z => map (app z) rest) (map (fun y => x ++ [y]) pool) =
  map (app x) (flat_map (fun y => map (cons y) rest) pool).
Proof.
  induction pool as [|y pool IH]; simpl.
  - reflexivity.
  - rewrite IH, map_app, map_map. f_equal.
    apply map_ext. intros t. now rewrite <- app_assoc.
Qed.

(** The loop of [product], started from any list of partial tuples,
    extends each of them by the recursive product of the pools. *)
Lemma product_loop (pools : list (list A)) :
  forall acc,
    fold_left
      (fun result pool =>
         flat_map (fun x => map (fun y => x ++ [y]) pool) result)
      pools acc =
    flat_map (fun x => map (app x) (Spec.cartesian pools)) acc.
Proof.
  induction pools as [|pool pools IH]; intros acc; simpl.
  - induction acc as [|x acc IHacc]; simpl.
    + reflexivity.
    + now rewrite app_nil_r, <- IHacc.
  - rewrite IH.
    induction acc as [|x acc IHacc]; simpl.
    + reflexivity.
    + now rewrite flat_map_app, extend_flat_map, IHacc.
Qed.

Lemma product_cartesian (pools : list (list A)) :
  Itertools.product pools = Spec.cartesian pools.
Proof.
  unfold Itertools.product. rewrite product_loop. simpl.
  rewrite app_nil_r. apply map_id.
Qed.

Lemma cartesian_length (pools : list (list A)) :
  List.length (Spec.cartesian pools) = Spec.size pools.
Proof.
  induction pools as [|pool pools IH]; simpl.
  - reflexivity.
  - induction pool as [|x pool IHp]; simpl.
    + reflexivity.
    + now rewrite length_app, length_map, IH, IHp.
Qed.

(** In a concatenation of blocks of one length, position [i] is position
    [i mod len] of block [i / len]. *)
Lemma nth_error_blocks {B : Type} (f : A -> list B) (len : nat) (l : list A) :
  (forall x, List.length (f x) = len) ->
  forall i, (i < List.length l * len)%nat ->
    nth_error (flat_map f l) i =
    match nth_error l (i / len) with
    | Some x => nth_error (f x) (i mod len)
    | None => None
    end.
Proof.
  intros Hlen.
  induction l as [|x l IH]; simpl; intros i Hi.
  - lia.
  - assert (Hpos : len <> 0%nat) by (intros ->; lia).
    destruct (Nat.lt_ge_cases i len) as [Hlt|Hge].
    + rewrite nth_error_app1 by (rewrite Hlen; assumption).
      rewrite Nat.div_small, Nat.mod_small by assumption.
      reflexivity.
    + rewrite nth_error_app2 by (rewrite Hlen; assumption).
      rewrite Hlen, IH by lia.
      assert (Hd : (i / len = S ((i - len) / len))%nat).
      { replace i with (1 * len + (i - len))%nat at 1 by lia.
        rewrite Nat.div_add_l by assumption. lia. }
      assert (Hm : (i mod len = (i - len) mod len)%nat).
      { replace i with ((i - len) + 1 * len)%nat at 1 by lia.
        apply Nat.Div0.mod_add. }
      rewrite Hd, Hm. reflexivity.
Qed.

Lemma cartesian_tuple_at (pools : list (list A)) :
  forall i, (i < Spec.size pools)%nat ->
    nth_error (Spec.cartesian pools) i = Spec.tuple_at pools i.
Proof.
  induction pools as [|pool pools IH]; simpl; intros i Hi.
  - replace i with 0%nat by lia. reflexivity.
  - rewrite (nth_error_blocks _ (len := Spec.size pools)); try assumption.
    + destruct (nth_error pool (i / Spec.size pools)) as [x|]; [|reflexivity].
      rewrite nth_error_map, IH.
      * destruct (Spec.tuple_at pools (i mod Spec.size pools)); reflexivity.
      * apply Nat.mod_upper_bound. intros Hz. rewrite Hz in Hi. lia.
    + intros x. rewrite length_map. apply cartesian_length.
Qed.

Lemma cartesian_empty_pool (pools : list (list A)) :
  In [] pools -> Spec.cartesian pools = [].
Proof.
  induction pools as [|pool pools IH]; simpl; intros Hin.
  - contradiction.
  - destruct Hin as [->|Hin]; [reflexivity|].
    rewrite IH by assumption.
    induction pool as [|x pool IHp]; simpl; auto.
Qed.

End product_facts.

Section expander.
Context {Model Agent : Type} `{ModelAPI Model Agent}.

(** C10. [make_iterable] gives back a value that is iterable and not a
    string as it is (lists and dictionaries), and puts any other value,
    numbers, [None] and strings alike, into a list of one element: 5
    becomes [[5]], and ["x"] becomes the list holding that string, whose
    iteration gives the string and not its characters. *)
Theorem make_iterable_wraps_scalars_and_strings :
  forall val : value,
    ((has_iter val = true /\ is_str val = false) /\ make_iterable val = val
     \/ (has_iter val = false \/ is_str val = true)
        /\ make_iterable val = VList [val])
    /\ (forall items, make_iterable (VList items) = VList items)
    /\ (forall entries, make_iterable (VDict entries) = VDict entries)
    /\ (forall s, make_iterable (VStr s) = VList [VStr s])
    /\ (forall n, make_iterable (VInt n) = VList [VInt n])
    /\ make_iterable (VInt 5) = VList [VInt 5]
    /\ make_iterable (VStr "x") = VList [VStr "x"]
    /\ iterate (make_iterable (VStr "x")) = [VStr "x"]
    /\ has_iter (make_iterable val) = true
    /\ is_str (make_iterable val) = false.
Proof.
  intros val. repeat split; try reflexivity.
  - destruct val; simpl; auto.
  - destruct val; reflexivity.
  - destruct val; reflexivity.
Qed.

(** C3. The configurations of a sweep are the Cartesian product of the
    candidate sequences in declaration order, the first parameter varying
    slowest and the last fastest: the list is the recursive product, it
    has as many tuples as the sizes multiply to, the tuple at each
    position is the one the digits of the position select, and one empty
    candidate sequence leaves no configuration.  For a: [1, 2], b: [10]
    the configurations are (1, 10) and (2, 10), in that order. *)
Theorem configurations_cartesian_order :
  (forall self : batch_runner Model Agent,
     let pools := dict_values (parameter_values self) in
     configurations self = Spec.cartesian pools
     /\ List.length (configurations self) = Spec.size pools
     /\ (forall i, (i < Spec.size pools)%nat ->
           nth_error (configurations self) i = Spec.tuple_at pools i)
     /\ (In [] pools -> configurations self = []))
  /\ (forall (cls : model_class Model) fixed iters steps
             (mrep : reporters Model) (arep : reporters Agent) bar,
        configurations
          (fst (init cls [("a"%string, VList [VInt 1; VInt 2]);
                          ("b"%string, VList [VInt 10])]
                     fixed iters steps mrep arep bar))
        = [[VInt 1; VInt 10]; [VInt 2; VInt 10]]).
Proof.
  split.
  - intros self pools. unfold configurations. fold pools.
    rewrite product_cartesian.
    repeat split.
    + apply cartesian_length.
    + apply cartesian_tuple_at.
    + apply cartesian_empty_pool.
  - intros. reflexivity.
Qed.

End expander.

(** The second configuration of a 2 x 2 sweep, read off position 1. *)
Lemma configurations_cartesian_order_witness :
  let self :=
    Examples.runner Examples.cls_a
      [("a"%string, VList [VInt 1; VInt 2]);
       ("b"%string, VList [VInt 10; VInt 20])] None 1 None None in
  (1 < Spec.size (dict_values (parameter_values self)))%nat
  /\ nth_error (configurations self) 1 = Some [VInt 1; VInt 20].
Proof.
  intros self. split.
  - vm_compute. lia.
  - destruct (@configurations_cartesian_order
                Examples.toy_model value) as [Hgen _].
    destruct (Hgen self) as (_ & _ & Hat & _).
    rewrite Hat by (vm_compute; lia).
    reflexivity.
Defined.

End ExpanderProps.

(** ** The model constructor *)

Module ConstructorProps.
Import Py Mesa BatchRunner PyFacts.

Section dict_update_facts.
Context {K V : Type} `{KeyLaws K}.

Lemma dict_update_append (other : dict K V) :
  forall acc,
    NoDup (dict_keys other) ->
    (forall k, In k (dict_keys other) -> ~ In k (dict_keys acc)) ->
    dict_update acc other = acc ++ other.
Proof.
  unfold dict_update.
  induction other as [|[k v] other IH]; simpl; intros acc Hnd Hdis.
  - now rewrite app_nil_r.
  - inversion Hnd as [|? ? Hk Hnd']; subst.
    rewrite dict_set_fresh by (apply Hdis; now left).
    rewrite IH; [now rewrite <- app_assoc | assumption |].
    intros k0 Hin. unfold dict_keys. rewrite map_app, in_app_iff. simpl.
    intros [Hacc|[->|[]]].
    + apply (Hdis k0); [now right | assumption].
    + contradiction.
Qed.

(** Updating the empty dictionary with a dictionary copies it. *)
Lemma dict_update_empty (d : dict K V) :
  NoDup (dict_keys d) -> dict_update [] d = d.
Proof.
  intros Hnd. rewrite dict_update_append; auto.
Qed.

(** In [d.update(other)] every key of [other] has the value [other] gives
    it, and every other key keeps the value it had in [d]. *)
Lemma dict_update_precedence (d other : dict K V) (k : K) :
  NoDup (dict_keys other) ->
  dict_get k (dict_update d other) =
  match dict_get k other with
  | Some v => Some v
  | None => dict_get k d
  end.
Proof.
  intros Hnd. rewrite dict_get_update, dict_update_empty by assumption.
  reflexivity.
Qed.

End dict_update_facts.

Section constructor.
Context {Model Agent : Type} `{ModelAPI Model Agent}.

Lemma fixed_truthy (self : batch_runner Model Agent) :
  fixed_values self <> [] -> dict_truthy (fixed_values self) = true.
Proof. destruct (fixed_values self); [congruence | reflexivity]. Qed.

Lemma try_direct (self : batch_runner Model Agent) variable_params :
  fixed_values self <> [] ->
  instantiate (model_cls self)
    (dict_update variable_params (fixed_values self)) <> Raised TypeError ->
  try_to_init_model self variable_params =
  instantiate (model_cls self)
    (dict_update variable_params (fixed_values self)).
Proof.
  intros Hfixed Hdirect. unfold try_to_init_model.
  rewrite (fixed_truthy self Hfixed). simpl.
  destruct (instantiate _ _) as [m|e|]; try reflexivity.
  destruct e; try reflexivity. congruence.
Qed.

Lemma try_fallback (self : batch_runner Model Agent) variable_params
    front last_arg :
  fixed_values self <> [] ->
  instantiate (model_cls self)
    (dict_update variable_params (fixed_values self)) = Raised TypeError ->
  init_signature (model_cls self) = front ++ [last_arg] ->
  try_to_init_model self variable_params =
  if existsb (param_kind_eqb (p_kind last_arg)) valid_types then
    instantiate (model_cls self)
      (dict_set (p_name last_arg) (VDict (fixed_values self)) variable_params)
  else Raised (cannot_configure variable_params (fixed_values self)).
Proof.
  intros Hfixed Hdirect Hsig. unfold try_to_init_model.
  rewrite (fixed_truthy self Hfixed), Hdirect, Hsig, rev_unit. reflexivity.
Qed.

(** C9. With no fixed parameters the model is built from the run
    configuration alone.  With fixed parameters the first call is made on
    the run configuration updated with them: unless that call ends in a
    [TypeError] its outcome is the outcome of the construction, and in the
    updated mapping a key of the fixed parameters has the fixed value,
    whatever the run configuration says, while any other key has the value
    of the run configuration. *)
Theorem try_to_init_model_merges_fixed_over_variable :
  forall (self : batch_runner Model Agent) (variable_params : dict string value),
    (fixed_values self = [] ->
       try_to_init_model self variable_params =
       instantiate (model_cls self) variable_params)
    /\ (fixed_values self <> [] ->
        NoDup (dict_keys (fixed_values self)) ->
        let kv := dict_update variable_params (fixed_values self) in
        (forall m, instantiate (model_cls self) kv = Ok m ->
                   try_to_init_model self variable_params = Ok m)
        /\ (instantiate (model_cls self) kv <> Raised TypeError ->
            try_to_init_model self variable_params =
            instantiate (model_cls self) kv)
        /\ (forall k v, dict_get k (fixed_values self) = Some v ->
                        dict_get k kv = Some v)
        /\ (forall k, dict_get k (fixed_values self) = None ->
                      dict_get k kv = dict_get k variable_params)).
Proof.
  intros self variable_params. split.
  - intros Hempty. unfold try_to_init_model. now rewrite Hempty.
  - intros Hfixed Hnd kv. repeat split.
    + intros m Hm. rewrite try_direct; [assumption | assumption |].
      fold kv. congruence.
    + apply try_direct. assumption.
    + intros k v Hget. unfold kv.
      now rewrite dict_update_precedence, Hget.
    + intros k Hget. unfold kv.
      now rewrite dict_update_precedence, Hget.
Qed.

(** C1, as the code has it.  When the call on the updated mapping ends in
    a [TypeError], the last parameter of the signature decides: if its
    kind is positional-or-keyword or variable-positional, the constructor
    is called again with the run configuration and, under the name of
    that parameter, the fixed parameters as one dictionary; a
    variable-keyword parameter is not among these kinds.  For
    [(self, a, b, **extra)] and fixed parameters c: 7 the first call
    already succeeds, with [extra] holding c: 7, and gives the model. *)
Theorem try_to_init_model_fallback_on_last_parameter :
  (forall (self : batch_runner Model Agent) variable_params front last_arg,
     fixed_values self <> [] ->
     instantiate (model_cls self)
       (dict_update variable_params (fixed_values self)) = Raised TypeError ->
     init_signature (model_cls self) = front ++ [last_arg] ->
     (p_kind last_arg = POSITIONAL_OR_KEYWORD
      \/ p_kind last_arg = VAR_POSITIONAL ->
      try_to_init_model self variable_params =
      instantiate (model_cls self)
        (dict_set (p_name last_arg) (VDict (fixed_values self))
                  variable_params))
     /\ (p_kind last_arg = VAR_KEYWORD ->
         try_to_init_model self variable_params =
         Raised (cannot_configure variable_params (fixed_values self))))
  /\ (let self :=
        Examples.runner Examples.cls_ab_extra
          [("a"%string, VInt 1); ("b"%string, VInt 2)]
          (Some [("c"%string, VInt 7)]) 1 None None in
      let variable_params := [("a"%string, VInt 1); ("b"%string, VInt 2)] in
      exists m,
        instantiate (model_cls self)
          (dict_update variable_params (fixed_values self)) = Ok m
        /\ try_to_init_model self variable_params = Ok m
        /\ dict_get "extra"%string (Examples.toy_args m)
           = Some (VDict [("c"%string, VInt 7)])).
Proof.
  split.
  - intros self variable_params front last_arg Hfixed Hdirect Hsig.
    rewrite (try_fallback self variable_params front last_arg Hfixed Hdirect Hsig).
    split.
    + intros [Hk|Hk]; rewrite Hk; reflexivity.
    + intros Hk; rewrite Hk; reflexivity.
  - eexists. repeat split.
Qed.

End constructor.

(** A collision: the run configuration says c = 0 and the fixed
    parameters c = 7; the model is built with c = 7. *)
Lemma try_to_init_model_merges_fixed_over_variable_witness :
  let self :=
    Examples.runner Examples.cls_abc [("c"%string, VInt 0)]
      (Some [("a"%string, VInt 1); ("b"%string, VInt 2); ("c"%string, VInt 7)])
      1 None None in
  let variable_params := [("c"%string, VInt 0)] in
  dict_get "c"%string (dict_update variable_params (fixed_values self))
  = Some (VInt 7)
  /\ try_to_init_model self variable_params
     = Ok (Examples.Toy
             [("a"%string, VInt 1); ("b"%string, VInt 2); ("c"%string, VInt 7)]
             0 3).
Proof.
  intros self variable_params.
  destruct (try_to_init_model_merges_fixed_over_variable self variable_params)
    as [_ Hfixed].
  assert (Hne : fixed_values self <> []) by (vm_compute; discriminate).
  assert (Hnd : NoDup (dict_keys (fixed_values self))).
  { vm_compute. repeat constructor; simpl; intuition discriminate. }
  destruct (Hfixed Hne Hnd) as (Hok & _ & Hprec & _).
  split.
  - apply Hprec. reflexivity.
  - apply Hok. reflexivity.
Defined.

(** [(self, a, fixed_params)] with fixed parameters c: 7: the call on the
    union is refused, and the second call binds the bundle to
    [fixed_params]. *)
Lemma try_to_init_model_fallback_on_last_parameter_witness :
  let self :=
    Examples.runner Examples.cls_a_bundle [("a"%string, VInt 1)]
      (Some [("c"%string, VInt 7)]) 1 None None in
  try_to_init_model self [("a"%string, VInt 1)]
  = Ok (Examples.Toy
          [("a"%string, VInt 1);
           ("fixed_params"%string, VDict [("c"%string, VInt 7)])] 0 3).
Proof.
  intros self.
  destruct (@try_to_init_model_fallback_on_last_parameter
              Examples.toy_model value) as [Hgen _].
  destruct (Hgen self [("a"%string, VInt 1)]
              [Examples.self_param;
               Examples.required "a" POSITIONAL_OR_KEYWORD]
              (Examples.required "fixed_params" POSITIONAL_OR_KEYWORD))
    as [Hcall _].
  - vm_compute. discriminate.
  - reflexivity.
  - reflexivity.
  - rewrite Hcall by (left; reflexivity). reflexivity.
Defined.

(** For [(self, a, b, **extra)] and fixed parameters c: 7 no model is
    built by the fallback: the call on the union does not fail. *)
Lemma var_keyword_constructor_not_built_by_fallback :
  let self :=
    Examples.runner Examples.cls_ab_extra
      [("a"%string, VInt 1); ("b"%string, VInt 2)]
      (Some [("c"%string, VInt 7)]) 1 None None in
  let variable_params := [("a"%string, VInt 1); ("b"%string, VInt 2)] in
  ~ (exists m, Spec.built_by_fallback self variable_params m
               /\ dict_get "extra"%string (Examples.toy_args m)
                  = Some (VDict [("c"%string, VInt 7)])).
Proof.
  intros self variable_params [m [(front & last_arg & _ & Hdirect & _) _]].
  vm_compute in Hdirect. discriminate.
Qed.

End ConstructorProps.

(** ** The run driver *)

Module DriverProps.
Import Py Mesa BatchRunner Spec.
Local Open Scope Z_scope.

Section driver.
Context {Model Agent : Type} `{ModelAPI Model Agent}.


Lemma after_steps_counter (Hstep : counts_steps) :
  forall k m m', Spec.after_steps k m = Ok m' -> steps m' = steps m + Z.of_nat k.
Proof.
  induction k as [|k IH]; simpl; intros m m' Hk.
  - injection Hk as <-. lia.
  - destruct (Hstep m) as (m1 & Hm1 & Hcount).
    rewrite Hm1 in Hk. simpl in Hk.
    apply IH in Hk. lia.
Qed.

(** The loop, followed by the distance of the counter to the ceiling. *)
Lemma run_model_by_distance (Hstep : counts_steps)
    (self : batch_runner Model Agent) :
  forall (d : nat) (model : Model),
    Z.to_nat (max_steps self - steps model) = d ->
    exists (k : nat) (model' : Model),
      (forall fuel, (d <= fuel)%nat -> run_model fuel self model = Ok model')
      /\ Spec.after_steps k model = Ok model'
      /\ (running model' = false \/ max_steps self <= steps model')
      /\ (forall j m, (j < k)%nat -> Spec.after_steps j model = Ok m ->
            running m = true /\ steps m < max_steps self).
Proof.
  induction d as [|d IH]; intros model Hd.
  - exists 0%nat, model. split; [|split; [|split]].
    + intros fuel _. destruct fuel; simpl;
        destruct (running model); simpl; try reflexivity;
        destruct (Z.ltb_spec (steps model) (max_steps self)); try reflexivity;
        lia.
    + reflexivity.
    + right. lia.
    + intros j m Hj. lia.
  - destruct (running model && (steps model <? max_steps self)) eqn:Hcond.
    + apply andb_true_iff in Hcond. destruct Hcond as [Hrun Hlt].
      apply Z.ltb_lt in Hlt.
      destruct (Hstep model) as (m1 & Hm1 & Hcount).
      destruct (IH m1) as (k & model' & Hfuel & Hafter & Hstop & Hbefore);
        [lia|].
      exists (S k), model'. split; [|split; [|split]].
      * intros fuel Hge. destruct fuel as [|fuel]; [lia|].
        simpl. rewrite Hrun. simpl.
        destruct (Z.ltb_spec (steps model) (max_steps self)); [|lia].
        rewrite Hm1. simpl. apply Hfuel. lia.
      * simpl. rewrite Hm1. simpl. assumption.
      * assumption.
      * intros j m Hj Hm. destruct j as [|j]; simpl in Hm.
        -- injection Hm as <-. split; assumption.
        -- rewrite Hm1 in Hm. simpl in Hm.
           apply (Hbefore j m); [lia | assumption].
    + exists 0%nat, model. split; [|split; [|split]].
      * intros fuel _. destruct fuel; simpl; rewrite Hcond; reflexivity.
      * reflexivity.
      * apply andb_false_iff in Hcond. destruct Hcond as [Hrun|Hlt].
        -- now left.
        -- right. now apply Z.ltb_ge in Hlt.
      * intros j m Hj. lia.
Qed.

(** C4. For a model whose step operation adds one to its counter, the run
    driver returns, whatever the running flag does, once the fuel covers
    the distance from the counter to the ceiling.  The model it returns is
    the model after some number [k] of steps; there the flag is false or
    the counter has reached the ceiling, and after every smaller number of
    steps the flag was true and the counter below the ceiling, so the loop
    stops exactly at the first of the two.  The counter ends [k] above
    where it started and, started at or below the ceiling, never passes
    it. *)
Theorem run_model_stops_at_flag_or_ceiling :
  forall (self : batch_runner Model Agent) (model : Model),
    counts_steps ->
    exists (k : nat) (model' : Model),
      (forall fuel,
         (Z.to_nat (max_steps self - steps model) <= fuel)%nat ->
         run_model fuel self model = Ok model')
      /\ Spec.after_steps k model = Ok model'
      /\ (running model' = false \/ max_steps self <= steps model')
      /\ (forall j m, (j < k)%nat -> Spec.after_steps j model = Ok m ->
            running m = true /\ steps m < max_steps self)
      /\ steps model' = steps model + Z.of_nat k
      /\ (steps model <= max_steps self ->
          forall j m, (j <= k)%nat -> Spec.after_steps j model = Ok m ->
            steps m <= max_steps self).
Proof.
  intros self model Hstep.
  destruct (run_model_by_distance Hstep self model eq_refl)
    as (k & model' & Hfuel & Hafter & Hstop & Hbefore).
  exists k, model'.
  split; [exact Hfuel|]. split; [exact Hafter|]. split; [exact Hstop|].
  split; [exact Hbefore|]. split.
  - apply (after_steps_counter Hstep k model Hafter).
  - intros Hstart j m Hj Hm.
    destruct (Nat.eq_dec j 0) as [->|Hpos].
    + simpl in Hm. injection Hm as <-. assumption.
    + destruct j as [|j]; [congruence|].
      pose proof (after_steps_counter Hstep (S j) model Hm) as Hcount.
      assert (Hprev : exists m0, Spec.after_steps j model = Ok m0).
      { clear - Hstep. revert model.
        induction j as [|j IH]; intros model; simpl.
        - eauto.
        - destruct (Hstep model) as (m1 & -> & _). simpl. apply IH. }
      destruct Hprev as [m0 Hm0].
      pose proof (after_steps_counter Hstep j model Hm0) as Hcount0.
      destruct (Hbefore j m0) as [_ Hlt]; [lia | assumption |].
      lia.
Qed.

End driver.

Import Examples.

(** A model that never stops by itself, started at step 0 under a
    ceiling of 1000. *)
Lemma run_model_stops_at_flag_or_ceiling_witness :
  let self := Examples.runner Examples.cls_a [] None 1 None None in
  let model := Examples.Toy [] 0 5000 in
  @counts_steps Examples.toy_model value Examples.toy_api
  /\ exists (k : nat) (model' : Examples.toy_model),
       (forall fuel,
          (Z.to_nat (max_steps self - steps model) <= fuel)%nat ->
          run_model fuel self model = Ok model')
       /\ Spec.after_steps k model = Ok model'
       /\ (running model' = false \/ max_steps self <= steps model')
       /\ (forall j m, (j < k)%nat -> Spec.after_steps j model = Ok m ->
             running m = true /\ steps m < max_steps self)
       /\ steps model' = steps model + Z.of_nat k
       /\ (steps model <= max_steps self ->
           forall j m, (j <= k)%nat -> Spec.after_steps j model = Ok m ->
             steps m <= max_steps self).
Proof.
  intros self model.
  assert (Hstep : @counts_steps Examples.toy_model value Examples.toy_api).
  { intros m. exists (Examples.toy_step m). split; reflexivity. }
  split; [exact Hstep|].
  exact (run_model_stops_at_flag_or_ceiling self model Hstep).
Defined.

End DriverProps.

(** ** The sweep *)

Module SweepProps.
Import Py Mesa BatchRunner Spec PyFacts.
Local Open Scope Z_scope.


Section key_lists.
Context {K V : Type} `{KeyLaws K}.

Lemma dict_keys_set (k : K) (v : V) (d : dict K V) :
  dict_keys (dict_set k v d) = add_key (dict_keys d) k.
Proof.
  unfold add_key. destruct (mem k (dict_keys d)) eqn:Hmem.
  - apply dict_keys_set_present. now apply mem_In.
  - apply mem_false in Hmem. rewrite dict_set_fresh by assumption.
    unfold dict_keys. now rewrite map_app.
Qed.

Lemma add_keys_fresh (new : list K) :
  forall ks,
    NoDup new -> (forall k, In k new -> ~ In k ks) ->
    fold_left add_key new ks = ks ++ new.
Proof.
  induction new as [|k new IH]; simpl; intros ks Hnd Hfresh.
  - now rewrite app_nil_r.
  - inversion Hnd as [|? ? Hk Hnd']; subst.
    unfold add_key at 2.
    replace (mem k ks) with false
      by (symmetry; apply mem_false; apply Hfresh; now left).
    rewrite IH; [now rewrite <- app_assoc | assumption |].
    intros k0 Hin. rewrite in_app_iff. simpl.
    intros [Hks|[->|[]]].
    + apply (Hfresh k0); [now right | assumption].
    + contradiction.
Qed.



End key_lists.

Section sweep_keys_facts.

Lemma iteration_keys_numbers (pv : list value) (n : nat) :
  forall rc,
    map Spec.run_number (Spec.iteration_keys pv n rc) =
    map (fun i => VInt (rc + Z.of_nat i)) (seq 0 n).
Proof.
  induction n as [|n IH]; intros rc; simpl.
  - reflexivity.
  - unfold Spec.run_number at 1. rewrite last_last.
    rewrite IH, <- seq_shift, map_map. f_equal.
    + f_equal. lia.
    + apply map_ext. intros i. f_equal. lia.
Qed.

Lemma map_seq_offset {B : Type} (f : nat -> B) (off len : nat) :
  forall start,
    map f (seq (start + off) len) = map (fun i => f (i + off)%nat) (seq start len).
Proof.
  induction len as [|len IH]; intros start; simpl.
  - reflexivity.
  - f_equal. apply (IH (S start)).
Qed.

(** The run numbers of a sweep go up by one from key to key, through all
    configurations. *)
Lemma sweep_keys_numbers (configs : list (list value)) (n : nat) :
  forall rc,
    map Spec.run_number (Spec.sweep_keys configs n rc) =
    map (fun i => VInt (rc + Z.of_nat i)) (seq 0 (List.length configs * n)).
Proof.
  induction configs as [|pv configs IH]; intros rc; simpl.
  - reflexivity.
  - rewrite map_app, iteration_keys_numbers, IH, seq_app, map_app.
    f_equal. rewrite map_seq_offset.
    apply map_ext. intros i. f_equal. lia.
Qed.

Lemma sweep_keys_NoDup (configs : list (list value)) (n : nat) (rc : Z) :
  NoDup (Spec.sweep_keys configs n rc).
Proof.
  apply (NoDup_map_inv Spec.run_number).
  rewrite sweep_keys_numbers.
  apply Finite.Injective_map_NoDup; [|apply seq_NoDup].
  intros i j Heq. injection Heq. lia.
Qed.

End sweep_keys_facts.
Section sweep.
Context {Model Agent : Type} `{ModelAPI Model Agent}.

Lemma bind_ok {A B : Type} (c : M A) (k : A -> M B) st a st1 :
  c st = (Ok a, st1) -> bind c k st = k a st1.
Proof. intros Hc. unfold bind. now rewrite Hc. Qed.

Lemma bind_raised {A B : Type} (c : M A) (k : A -> M B) st e st1 :
  c st = (Raised e, st1) -> bind c k st = (Raised e, st1).
Proof. intros Hc. unfold bind. now rewrite Hc. Qed.

Lemma bind_ok_inv {A B : Type} (c : M A) (k : A -> M B) st b st' :
  bind c k st = (Ok b, st') ->
  exists a st1, c st = (Ok a, st1) /\ k a st1 = (Ok b, st').
Proof.
  unfold bind. destruct (c st) as [[a|e|] st1]; try discriminate.
  intros Hk. eauto.
Qed.

Lemma bind_assoc {A B C : Type} (c : M A) (k : A -> M B) (k' : B -> M C) st :
  bind (bind c k) k' st = bind c (fun a => bind (k a) k') st.
Proof.
  unfold bind. destruct (c st) as [[a|e|] st1]; reflexivity.
Qed.

Lemma bind_ext {A B : Type} (c : M A) (k k' : A -> M B) st :
  (forall a st1, k a st1 = k' a st1) -> bind c k st = bind c k' st.
Proof.
  intros Hk. unfold bind. destruct (c st) as [[a|e|] st1]; auto.
Qed.

(** Storing entity records leaves the model-level store alone. *)
Lemma store_agent_vars_model_vars (pv : list value) (rc : Z) items :
  forall st out st',
    store_agent_vars pv rc items st = (out, st') ->
    model_vars st' = model_vars st.
Proof.
  induction items as [|[agent_id reports] items IH]; simpl; intros st out st' Hrun.
  - unfold ret in Hrun. congruence.
  - unfold bind, set_agent_vars in Hrun.
    destruct (forallb hashable (pv ++ [VInt rc; agent_id])).
    + apply IH in Hrun. assumption.
    + congruence.
Qed.

(** A run that completes writes the model-level record of its number. *)
Lemma run_iteration_model_vars fuel (self : batch_runner Model Agent)
    pv rc m st m' st' :
  run_iteration fuel self pv rc m st = (Ok m', st') ->
  run_model fuel self m = Ok m'
  /\ (if reporters_truthy (model_reporters self) then
        exists record,
          collect_model_vars self m' = Ok record
          /\ model_vars st' = dict_set (pv ++ [VInt rc]) record (model_vars st)
      else model_vars st' = model_vars st).
Proof.
  unfold run_iteration, bind, lift, ret, set_model_vars.
  intros Hrun.
  destruct (run_model fuel self m) as [m1| |]; try discriminate.
  destruct (reporters_truthy (model_reporters self)).
  - destruct (collect_model_vars self m1) as [record| |] eqn:Hcollect;
      try discriminate.
    destruct (forallb hashable (pv ++ [VInt rc])); try discriminate.
    destruct (reporters_truthy (agent_reporters self)).
    + destruct (collect_agent_vars self m1) as [items| |]; try discriminate.
      destruct (store_agent_vars pv rc items _) as [[[]| |] st2] eqn:Hstore;
        try discriminate.
      apply store_agent_vars_model_vars in Hstore. simpl in Hstore.
      injection Hrun as <- <-. split; [reflexivity|]. eauto.
    + injection Hrun as <- <-. split; [reflexivity|]. eauto.
  - destruct (reporters_truthy (agent_reporters self)).
    + destruct (collect_agent_vars self m1) as [items| |]; try discriminate.
      destruct (store_agent_vars pv rc items _) as [[[]| |] st2] eqn:Hstore;
        try discriminate.
      apply store_agent_vars_model_vars in Hstore.
      injection Hrun as <- <-. split; [reflexivity | assumption].
    + injection Hrun as <- <-. split; reflexivity.
Qed.


Lemma run_iteration_model_keys fuel (self : batch_runner Model Agent)
    pv rc m st m' st' :
  run_iteration fuel self pv rc m st = (Ok m', st') ->
  dict_keys (model_vars st') =
  fold_left add_key (written_keys self [pv ++ [VInt rc]])
            (dict_keys (model_vars st)).
Proof.
  intros Hrun. apply run_iteration_model_vars in Hrun.
  destruct Hrun as [_ Hvars]. unfold written_keys.
  destruct (reporters_truthy (model_reporters self)); simpl.
  - destruct Hvars as (record & _ & ->). apply dict_keys_set.
  - now rewrite Hvars.
Qed.

Lemma run_iterations_model_keys fuel (self : batch_runner Model Agent) pv n :
  forall rc m st rc' m' st',
    run_iterations fuel self pv n rc m st = (Ok (rc', m'), st') ->
    rc' = rc + Z.of_nat n
    /\ dict_keys (model_vars st') =
       fold_left add_key (written_keys self (Spec.iteration_keys pv n rc))
                 (dict_keys (model_vars st)).
Proof.
  induction n as [|n IH]; intros rc m st rc' m' st' Hrun.
  - simpl in Hrun. unfold ret in Hrun. injection Hrun as <- <- <-.
    split; [lia|]. unfold written_keys.
    destruct (reporters_truthy (model_reporters self)); reflexivity.
  - simpl in Hrun. apply bind_ok_inv in Hrun.
    destruct Hrun as (m1 & st1 & Hiter & Hrest).
    apply run_iteration_model_keys in Hiter.
    apply IH in Hrest. destruct Hrest as [-> Hkeys].
    split; [lia|]. rewrite Hkeys, Hiter. unfold written_keys.
    destruct (reporters_truthy (model_reporters self)); reflexivity.
Qed.

Lemma run_configurations_model_keys fuel (self : batch_runner Model Agent)
    configs :
  forall rc st rc' st',
    run_configurations fuel self configs rc st = (Ok rc', st') ->
    let n := Z.to_nat (iterations self) in
    rc' = rc + Z.of_nat (List.length configs * n)
    /\ dict_keys (model_vars st') =
       fold_left add_key (written_keys self (Spec.sweep_keys configs n rc))
                 (dict_keys (model_vars st)).
Proof.
  induction configs as [|pv configs IH]; intros rc st rc' st' Hrun n.
  - simpl in Hrun. unfold ret in Hrun. injection Hrun as <- <-.
    split; [simpl; lia|]. unfold written_keys.
    destruct (reporters_truthy (model_reporters self)); reflexivity.
  - simpl in Hrun. apply bind_ok_inv in Hrun.
    destruct Hrun as (m0 & st0 & Hinit & Hrun).
    unfold lift in Hinit. injection Hinit as Hinit <-.
    apply bind_ok_inv in Hrun.
    destruct Hrun as ([rc1 m1] & st1 & Hiters & Hrest).
    apply run_iterations_model_keys in Hiters. destruct Hiters as [-> Hkeys1].
    apply IH in Hrest. simpl in Hrest. destruct Hrest as [-> Hkeys].
    fold n in Hkeys, Hkeys1.
    split; [simpl; fold n; lia|].
    rewrite Hkeys, Hkeys1. unfold written_keys. simpl.
    destruct (reporters_truthy (model_reporters self)).
    + now rewrite fold_left_app.
    + reflexivity.
Qed.

(** *** Stores only grow *)














(** *** Sweeps that return *)


Lemma Forall_dict_set {K V : Type} `{KeyLaws K} (Q : K -> Prop)
    (k : K) (v : V) (d : dict K V) :
  Q k -> Forall (fun kv => Q (fst kv)) d ->
  Forall (fun kv => Q (fst kv)) (dict_set k v d).
Proof.
  intros Hk Hd. induction Hd as [|[k' v'] d Hk' Hd IH]; simpl.
  - repeat constructor. assumption.
  - destruct (key_eqb k k'); constructor; assumption.
Qed.

(** The identifiers under which entity records are collected hash. *)
Lemma collect_agents_hashable (self : batch_runner Model Agent) ags :
  forall acc items,
    collect_agents self ags acc = Ok items ->
    Forall (fun kv => hashable (fst kv) = true) acc ->
    Forall (fun kv => hashable (fst kv) = true) items.
Proof.
  induction ags as [|agent ags IH]; simpl; intros acc items Hrun Hacc.
  - injection Hrun as <-. assumption.
  - unfold rbind in Hrun.
    destruct (reporter_items (agent_reporters self)) as [reps| |];
      try discriminate.
    destruct (run_reporters reps agent []) as [record| |]; try discriminate.
    destruct (hashable (unique_id agent)) eqn:Hid; try discriminate.
    apply IH in Hrun; [assumption|].
    apply (Forall_dict_set (fun k => hashable k = true)); assumption.
Qed.

Lemma store_agent_vars_returns pv rc items :
  forallb hashable pv = true ->
  Forall (fun kv => hashable (fst kv) = true) items ->
  forall st, exists st', store_agent_vars pv rc items st = (Ok tt, st').
Proof.
  intros Hpv Hitems.
  induction Hitems as [|[agent_id reports] items Hid _ IH]; simpl; intros st.
  - eexists. reflexivity.
  - unfold bind, set_agent_vars.
    rewrite forallb_app, Hpv. simpl in Hid |- *. rewrite Hid. simpl.
    apply IH.
Qed.

Lemma run_iteration_returns fuel (self : batch_runner Model Agent) good
    pv rc m :
  well_behaved fuel self good -> good m -> forallb hashable pv = true ->
  forall st, exists m' st',
    run_iteration fuel self pv rc m st = (Ok m', st') /\ good m'.
Proof.
  intros Hwb Hgood Hpv st.
  destruct (wb_run Hwb m Hgood) as (m' & Hrun & Hgood').
  unfold run_iteration.
  erewrite bind_ok by (unfold lift; rewrite Hrun; reflexivity).
  assert (Hmodel : exists st1,
    (if reporters_truthy (model_reporters self) then
       bind (lift (collect_model_vars self m')) (fun record =>
       set_model_vars (pv ++ [VInt rc]) record)
     else ret tt) st = (Ok tt, st1)).
  { destruct (reporters_truthy (model_reporters self)) eqn:Htruthy.
    - destruct (wb_model_reporters Hwb m' Hgood' Htruthy) as [record Hrec].
      unfold bind, lift, set_model_vars. rewrite Hrec.
      rewrite forallb_app, Hpv. simpl. eauto.
    - unfold ret. eauto. }
  destruct Hmodel as [st1 Hmodel].
  erewrite bind_ok by exact Hmodel.
  assert (Hagent : exists st2,
    (if reporters_truthy (agent_reporters self) then
       bind (lift (collect_agent_vars self m')) (fun agent_vars =>
       store_agent_vars pv rc agent_vars)
     else ret tt) st1 = (Ok tt, st2)).
  { destruct (reporters_truthy (agent_reporters self)) eqn:Htruthy.
    - destruct (wb_agent_reporters Hwb m' Hgood' Htruthy) as [items Hitems].
      unfold bind, lift. rewrite Hitems.
      apply store_agent_vars_returns; [assumption|].
      eapply collect_agents_hashable; [exact Hitems | constructor].
    - unfold ret. eauto. }
  destruct Hagent as [st2 Hagent].
  erewrite bind_ok by exact Hagent.
  unfold ret. eauto.
Qed.

Lemma run_iterations_returns fuel (self : batch_runner Model Agent) good pv n :
  well_behaved fuel self good -> forallb hashable pv = true ->
  forall rc m st, good m ->
    exists rc' m' st',
      run_iterations fuel self pv n rc m st = (Ok (rc', m'), st').
Proof.
  intros Hwb Hpv.
  induction n as [|n IH]; intros rc m st Hgood; simpl.
  - unfold ret. eauto.
  - destruct (@run_iteration_returns fuel self good pv rc m Hwb Hgood Hpv st)
      as (m1 & st1 & Hiter & Hgood1).
    rewrite (bind_ok _ _ _ Hiter). apply IH. assumption.
Qed.

Lemma run_configurations_returns fuel (self : batch_runner Model Agent) good
    configs :
  well_behaved fuel self good -> incl configs (configurations self) ->
  forall rc st, exists rc' st',
    run_configurations fuel self configs rc st = (Ok rc', st').
Proof.
  intros Hwb.
  induction configs as [|pv configs IH]; intros Hincl rc st; simpl.
  - unfold ret. eauto.
  - assert (Hpv : In pv (configurations self)) by (apply Hincl; now left).
    destruct (wb_init Hwb pv Hpv) as (m & Hinit & Hgood).
    unfold bind at 1, lift. rewrite Hinit.
    destruct (@run_iterations_returns fuel self good pv
                (Z.to_nat (iterations self)) Hwb
                (wb_hashable Hwb pv Hpv) rc m st Hgood)
      as (rc1 & m1 & st1 & Hiters).
    rewrite (bind_ok _ _ _ Hiters). simpl.
    apply IH. intros pv' Hin. apply Hincl. now right.
Qed.

Lemma run_all_returns fuel (self : batch_runner Model Agent) good :
  well_behaved fuel self good ->
  forall st, exists st', run_all fuel self st = (Ok tt, st').
Proof.
  intros Hwb st. unfold run_all.
  destruct (@run_configurations_returns fuel self good (configurations self)
              Hwb (incl_refl _) 0 st)
    as (rc & st' & Hrun).
  rewrite (bind_ok _ _ _ Hrun). unfold ret. eauto.
Qed.

(** *** Where a sweep stops *)

Lemma run_configurations_app fuel (self : batch_runner Model Agent) pre post :
  forall rc st,
    run_configurations fuel self (pre ++ post) rc st =
    bind (run_configurations fuel self pre rc)
         (run_configurations fuel self post) st.
Proof.
  induction pre as [|pv pre IH]; intros rc st; simpl.
  - reflexivity.
  - rewrite bind_assoc. apply bind_ext. intros m st1.
    rewrite bind_assoc. apply bind_ext. intros after st2.
    apply IH.
Qed.

Lemma run_iterations_add fuel (self : batch_runner Model Agent) pv j r :
  forall rc m st,
    run_iterations fuel self pv (j + r) rc m st =
    bind (run_iterations fuel self pv j rc m)
         (fun after => run_iterations fuel self pv r (fst after) (snd after))
         st.
Proof.
  induction j as [|j IH]; intros rc m st; simpl.
  - reflexivity.
  - rewrite bind_assoc. apply bind_ext. intros m1 st1.
    apply IH.
Qed.

(** A sweep that has completed the configurations [pre] and [j] runs of
    the next one, and whose next run raises, raises, with the stores as
    that run leaves them. *)
Lemma run_all_raises_in_run fuel (self : batch_runner Model Agent)
    st0 pre pv post rc st1 m0 j rc_j m_j st_j e st' :
  configurations self = pre ++ pv :: post ->
  run_configurations fuel self pre 0 st0 = (Ok rc, st1) ->
  try_to_init_model self (configuration_kwargs self pv) = Ok m0 ->
  (j < Z.to_nat (iterations self))%nat ->
  run_iterations fuel self pv j rc m0 st1 = (Ok (rc_j, m_j), st_j) ->
  run_iteration fuel self pv rc_j m_j st_j = (Raised e, st') ->
  run_all fuel self st0 = (Raised e, st').
Proof.
  intros Hconfigs Hpre Hinit Hj Hdone Hfail.
  unfold run_all. rewrite Hconfigs. apply bind_raised.
  rewrite run_configurations_app. rewrite (bind_ok _ _ _ Hpre). simpl.
  unfold bind at 1, lift. rewrite Hinit.
  apply bind_raised.
  replace (Z.to_nat (iterations self))
    with (j + S (Z.to_nat (iterations self) - S j))%nat by lia.
  rewrite run_iterations_add. rewrite (bind_ok _ _ _ Hdone). simpl.
  apply bind_raised. assumption.
Qed.

(** A sweep that has completed the configurations [pre], and for whose
    next configuration the constructor raises, raises, with the stores
    as the completed configurations left them. *)
Lemma run_all_raises_in_init fuel (self : batch_runner Model Agent)
    st0 pre pv post rc st1 e :
  configurations self = pre ++ pv :: post ->
  run_configurations fuel self pre 0 st0 = (Ok rc, st1) ->
  try_to_init_model self (configuration_kwargs self pv) = Raised e ->
  run_all fuel self st0 = (Raised e, st1).
Proof.
  intros Hconfigs Hpre Hinit.
  unfold run_all. rewrite Hconfigs. apply bind_raised.
  rewrite run_configurations_app. rewrite (bind_ok _ _ _ Hpre). simpl.
  unfold bind, lift. now rewrite Hinit.
Qed.

(** *** A reporter that raises *)

Lemma run_iteration_model_reporter_raises fuel
    (self : batch_runner Model Agent) pv rc m m' e st :
  run_model fuel self m = Ok m' ->
  reporters_truthy (model_reporters self) = true ->
  collect_model_vars self m' = Raised e ->
  run_iteration fuel self pv rc m st = (Raised e, st).
Proof.
  intros Hrun Htruthy Hcollect. unfold run_iteration.
  erewrite bind_ok by (unfold lift; rewrite Hrun; reflexivity).
  apply bind_raised. rewrite Htruthy.
  apply bind_raised. unfold lift. now rewrite Hcollect.
Qed.

Lemma run_iteration_agent_reporter_raises fuel
    (self : batch_runner Model Agent) pv rc m m' e st :
  run_model fuel self m = Ok m' ->
  reporters_truthy (agent_reporters self) = true ->
  collect_agent_vars self m' = Raised e ->
  (reporters_truthy (model_reporters self) = false ->
   run_iteration fuel self pv rc m st = (Raised e, st))
  /\ (forall record,
        reporters_truthy (model_reporters self) = true ->
        collect_model_vars self m' = Ok record ->
        forallb hashable pv = true ->
        run_iteration fuel self pv rc m st =
        (Raised e,
         {| model_vars := dict_set (pv ++ [VInt rc]) record (model_vars st);
            agent_vars := agent_vars st |})).
Proof.
  intros Hrun Htruthy Hcollect. split.
  - intros Hnone. unfold run_iteration.
    erewrite bind_ok by (unfold lift; rewrite Hrun; reflexivity).
    rewrite Hnone, Htruthy.
    erewrite bind_ok by reflexivity.
    apply bind_raised. apply bind_raised. unfold lift. now rewrite Hcollect.
  - intros record Hsome Hrecord Hpv. unfold run_iteration.
    erewrite bind_ok by (unfold lift; rewrite Hrun; reflexivity).
    rewrite Hsome, Htruthy.
    erewrite bind_ok.
    2:{ erewrite bind_ok by (unfold lift; rewrite Hrecord; reflexivity).
        unfold set_model_vars. rewrite forallb_app, Hpv. reflexivity. }
    apply bind_raised. apply bind_raised. unfold lift. now rewrite Hcollect.
Qed.

(** C7. With model-level reporters and the model-level store empty at the
    start, a sweep that returns leaves in that store exactly the keys of
    its configurations in order, each with its runs, under run numbers
    that count up from 0 through the whole sweep without starting again
    at a new configuration; one configuration run 3 times gives 3 keys,
    numbered 0, 1 and 2.  A sweep whose parts all return does return. *)
Theorem run_count_runs_through_all_configurations :
  forall fuel (self : batch_runner Model Agent) st0,
    reporters_truthy (model_reporters self) = true ->
    model_vars st0 = [] ->
    let n := Z.to_nat (iterations self) in
    (forall st,
       run_all fuel self st0 = (Ok tt, st) ->
       dict_keys (model_vars st) = Spec.sweep_keys (configurations self) n 0
       /\ map Spec.run_number (dict_keys (model_vars st)) =
          map (fun i => VInt (Z.of_nat i))
              (seq 0 (List.length (configurations self) * n))
       /\ (forall pv, configurations self = [pv] -> iterations self = 3 ->
             dict_keys (model_vars st) =
             [pv ++ [VInt 0]; pv ++ [VInt 1]; pv ++ [VInt 2]]))
    /\ (forall good, well_behaved fuel self good ->
         exists st, run_all fuel self st0 = (Ok tt, st)).
Proof.
  intros fuel self st0 Htruthy Hempty n. split.
  - intros st Hrun.
    unfold run_all in Hrun. apply bind_ok_inv in Hrun.
    destruct Hrun as (rc & st1 & Hrun & Hret).
    injection Hret as <-.
    apply run_configurations_model_keys in Hrun. simpl in Hrun.
    destruct Hrun as [_ Hkeys]. fold n in Hkeys.
    unfold written_keys in Hkeys. rewrite Htruthy, Hempty in Hkeys.
    rewrite add_keys_fresh in Hkeys;
      [| apply sweep_keys_NoDup | intros k _ []].
    simpl in Hkeys.
    repeat split.
    + assumption.
    + rewrite Hkeys, sweep_keys_numbers. apply map_ext. intros i.
      f_equal.
    + intros pv Hone Hthree. rewrite Hkeys, Hone. unfold n.
      rewrite Hthree. reflexivity.
  - intros good Hwb. apply (run_all_returns Hwb).
Qed.


(** C6, as the code has it.  Take a sweep that has completed the
    configurations before [pv] and [j] runs of [pv], leaving the stores
    [st_j], and whose next run drives the model to [m'].  If a model-level
    reporter raises on [m'], [run_all] raises the same exception and
    leaves the stores [st_j].  If an entity-level reporter raises on [m'],
    [run_all] raises the same exception; the entity-level store is that
    of [st_j], and so is the model-level store when there are no
    model-level reporters, while with model-level reporters the
    model-level store holds in addition the record of the failing run,
    which was stored before the entities were visited. *)
Theorem reporter_exception_aborts_run_all :
  forall fuel (self : batch_runner Model Agent)
         st0 pre pv post rc st1 m0 j rc_j m_j st_j m' e,
    configurations self = pre ++ pv :: post ->
    run_configurations fuel self pre 0 st0 = (Ok rc, st1) ->
    try_to_init_model self (configuration_kwargs self pv) = Ok m0 ->
    (j < Z.to_nat (iterations self))%nat ->
    run_iterations fuel self pv j rc m0 st1 = (Ok (rc_j, m_j), st_j) ->
    run_model fuel self m_j = Ok m' ->
    (reporters_truthy (model_reporters self) = true ->
     collect_model_vars self m' = Raised e ->
     run_all fuel self st0 = (Raised e, st_j))
    /\ (reporters_truthy (agent_reporters self) = true ->
        collect_agent_vars self m' = Raised e ->
        (reporters_truthy (model_reporters self) = false ->
         run_all fuel self st0 = (Raised e, st_j))
        /\ (forall record,
              reporters_truthy (model_reporters self) = true ->
              collect_model_vars self m' = Ok record ->
              forallb hashable pv = true ->
              run_all fuel self st0 =
              (Raised e,
               {| model_vars :=
                    dict_set (pv ++ [VInt rc_j]) record (model_vars st_j);
                  agent_vars := agent_vars st_j |}))).
Proof.
  intros fuel self st0 pre pv post rc st1 m0 j rc_j m_j st_j m' e
         Hconfigs Hpre Hinit Hj Hdone Hrun.
  split.
  - intros Htruthy Hcollect.
    eapply run_all_raises_in_run; try eassumption.
    eapply run_iteration_model_reporter_raises; eassumption.
  - intros Htruthy Hcollect.
    destruct (@run_iteration_agent_reporter_raises fuel self pv rc_j m_j m' e
                st_j Hrun Htruthy Hcollect) as [Hnone Hsome].
    split.
    + intros Hmodel. eapply run_all_raises_in_run; try eassumption.
      apply Hnone. assumption.
    + intros record Hmodel Hrecord Hpv.
      eapply run_all_raises_in_run; try eassumption.
      apply Hsome; assumption.
Qed.

(** C8, as the code has it.  When the call on the union ends in a
    [TypeError] and the last parameter is of a kind the fallback does not
    accept, the constructor raises a [ValueError] whose text is built from
    the run configuration and the fixed parameters.  Whatever exception
    the construction for a configuration ends in, [run_all] raises it at
    once and leaves the stores as the configurations completed before left
    them. *)
Theorem constructor_exception_aborts_run_all :
  (forall (self : batch_runner Model Agent) variable_params front last_arg,
     fixed_values self <> [] ->
     instantiate (model_cls self)
       (dict_update variable_params (fixed_values self)) = Raised TypeError ->
     init_signature (model_cls self) = front ++ [last_arg] ->
     p_kind last_arg <> POSITIONAL_OR_KEYWORD ->
     p_kind last_arg <> VAR_POSITIONAL ->
     try_to_init_model self variable_params =
     Raised (ValueError
               (Format
                  "Cannot configure model with variable params {} and fixed params {}"
                  [VDict variable_params; VDict (fixed_values self)])))
  /\ (forall fuel (self : batch_runner Model Agent) st0 pre pv post rc st1 e,
        configurations self = pre ++ pv :: post ->
        run_configurations fuel self pre 0 st0 = (Ok rc, st1) ->
        try_to_init_model self (configuration_kwargs self pv) = Raised e ->
        run_all fuel self st0 = (Raised e, st1)).
Proof.
  split.
  - intros self variable_params front last_arg Hfixed Hdirect Hsig Hk1 Hk2.
    rewrite (ConstructorProps.try_fallback self variable_params front last_arg
               Hfixed Hdirect Hsig).
    destruct (p_kind last_arg); try reflexivity; congruence.
  - intros. eapply run_all_raises_in_init; eassumption.
Qed.

End sweep.
Import Examples.
Local Open Scope string_scope.
Local Open Scope list_scope.
Local Open Scope Z_scope.

(** The example sweep is one whose parts all return, on the models whose
    step count is not negative. *)
Lemma toy_sweep_well_behaved :
  well_behaved 1000 toy_sweep (fun m => 0 <= toy_steps m).
Proof.
  constructor.
  - intros pv [<-|[<-|[]]]; eexists; (split; [reflexivity | simpl; lia]).
  - intros m Hgood.
    assert (Hstep : @Spec.counts_steps toy_model value toy_api).
    { intros m0. exists (toy_step m0). split; reflexivity. }
    destruct (DriverProps.run_model_by_distance Hstep toy_sweep m eq_refl)
      as (k & m' & Hfuel & Hafter & _).
    exists m'. split.
    + apply Hfuel. change (max_steps toy_sweep) with 1000.
      change (steps m) with (toy_steps m). lia.
    + pose proof (DriverProps.after_steps_counter Hstep k m Hafter) as Hcount.
      change (steps m') with (toy_steps m') in Hcount.
      change (steps m) with (toy_steps m) in Hcount. lia.
  - intros m _ _. eexists. reflexivity.
  - intros m _ _. eexists. reflexivity.
  - intros pv [<-|[<-|[]]]; reflexivity.
Qed.

(** The example sweep: 2 configurations of 3 runs, numbered 0 to 5. *)
Lemma run_count_runs_through_all_configurations_witness :
  reporters_truthy (model_reporters toy_sweep) = true
  /\ model_vars no_stores = []
  /\ exists st,
       run_all 1000 toy_sweep no_stores = (Ok tt, st)
       /\ dict_keys (model_vars st) =
          [[VInt 1; VInt 0]; [VInt 1; VInt 1]; [VInt 1; VInt 2];
           [VInt 2; VInt 3]; [VInt 2; VInt 4]; [VInt 2; VInt 5]].
Proof.
  split; [reflexivity|]. split; [reflexivity|].
  destruct (@run_count_runs_through_all_configurations
              toy_model value toy_api 1000%nat toy_sweep no_stores
              eq_refl eq_refl) as [Hkeys Hreturns].
  destruct (Hreturns _ toy_sweep_well_behaved) as [st Hrun].
  exists st. split; [assumption|].
  destruct (Hkeys st Hrun) as (-> & _ & _). reflexivity.
Defined.



(** The first run of a sweep whose entity-level reporter raises: with
    model-level reporters, the record of that run is in the model-level
    store when [run_all] raises. *)
Lemma reporter_exception_aborts_run_all_witness :
  run_all 1000 toy_sweep_failing_entities no_stores =
  (Raised (OtherError "ZeroDivisionError"),
   {| model_vars := [([VInt 1; VInt 0], [("steps", VInt 3)])];
      agent_vars := [] |}).
Proof.
  destruct (@reporter_exception_aborts_run_all
              toy_model value toy_api 1000%nat toy_sweep_failing_entities
              no_stores [] [VInt 1] [[VInt 2]] 0 no_stores
              (Toy [("a", VInt 1)] 0 3) 0%nat 0
              (Toy [("a", VInt 1)] 0 3) no_stores
              (Toy [("a", VInt 1)] 3 3) (OtherError "ZeroDivisionError"))
    as [_ Hentities].
  - reflexivity.
  - reflexivity.
  - reflexivity.
  - vm_compute. lia.
  - reflexivity.
  - vm_compute. reflexivity.
  - destruct (Hentities eq_refl eq_refl) as [_ Hrecord].
    apply (Hrecord [("steps", VInt 3)]); reflexivity.
Defined.

(** No run is completed before the first one, and the stores are empty
    when it starts; an entity-level reporter raises in it, and the
    model-level store is not empty afterwards: it holds a record under
    run number 0, the number of the failing run. *)
Lemma entity_reporter_failure_keeps_model_record :
  let self := toy_sweep_failing_entities in
  let m0 := Toy [("a", VInt 1)] 0 3 in
  let m' := Toy [("a", VInt 1)] 3 3 in
  let st := snd (run_all 1000 self no_stores) in
  configurations self = [] ++ [VInt 1] :: [[VInt 2]]
  /\ try_to_init_model self (configuration_kwargs self [VInt 1]) = Ok m0
  /\ run_iterations 1000 self [VInt 1] 0 0 m0 no_stores
     = (Ok (0, m0), no_stores)
  /\ run_model 1000 self m0 = Ok m'
  /\ collect_agent_vars self m' = Raised (OtherError "ZeroDivisionError")
  /\ fst (run_all 1000 self no_stores)
     = Raised (OtherError "ZeroDivisionError")
  /\ st <> no_stores
  /\ dict_keys (model_vars st) = [[VInt 1; VInt 0]].
Proof.
  vm_compute. repeat split; discriminate.
Qed.

(** [b] is missing, the last parameter is the variable-keyword one: the
    constructor raises the configuration error and the sweep stops with
    the stores as they were. *)
Lemma constructor_exception_aborts_run_all_witness :
  run_all 1000 toy_sweep_missing_argument no_stores =
  (Raised (ValueError
             (Format
                "Cannot configure model with variable params {} and fixed params {}"
                [VDict [("a", VInt 1)]; VDict [("c", VInt 7)]])),
   no_stores).
Proof.
  destruct (@constructor_exception_aborts_run_all toy_model value toy_api)
    as [Hmessage Habort].
  apply (Habort 1000%nat toy_sweep_missing_argument no_stores
                [] [VInt 1] [] 0 no_stores).
  - reflexivity.
  - reflexivity.
  - apply (Hmessage toy_sweep_missing_argument [("a", VInt 1)]
             [self_param; required "a" POSITIONAL_OR_KEYWORD;
              required "b" POSITIONAL_OR_KEYWORD]
             (required "extra" VAR_KEYWORD)).
    + vm_compute. discriminate.
    + reflexivity.
    + reflexivity.
    + simpl. discriminate.
    + simpl. discriminate.
Defined.

(** [(self, a, b, c)] with a = 1 and the fixed parameters z: 7: the call
    on the union is refused, the call that binds the bundle to [c] is
    refused as well, [b] being missing, and the exception is the
    [TypeError] of that call, not the configuration error. *)
Lemma failed_fallback_raises_type_error :
  let self := toy_sweep_unknown_argument in
  let variable_params := [("a", VInt 1)] in
  instantiate (model_cls self)
    (dict_update variable_params (fixed_values self)) = Raised TypeError
  /\ instantiate (model_cls self)
       (dict_set "c" (VDict (fixed_values self)) variable_params)
     = Raised TypeError
  /\ try_to_init_model self variable_params = Raised TypeError
  /\ try_to_init_model self variable_params <>
     Raised (cannot_configure variable_params (fixed_values self))
  /\ run_all 1000 self no_stores = (Raised TypeError, no_stores).
Proof.
  vm_compute. repeat split; discriminate.
Qed.

End SweepProps.

(** ** The report builder *)

Module ReportProps.
Import Py Mesa BatchRunner PyFacts.

Section sorting.
Context {A : Type} (leb : A -> A -> bool).
Hypothesis leb_total : forall a b, leb a b = true \/ leb b a = true.

Lemma insert_sorted_Permutation (x : A) (l : list A) :
  Permutation (insert_sorted leb x l) (x :: l).
Proof.
  induction l as [|y l IH]; simpl.
  - apply Permutation_refl.
  - destruct (leb x y).
    + apply Permutation_refl.
    + eapply perm_trans; [apply perm_skip, IH | apply perm_swap].
Qed.

Lemma sorted_Permutation (l : list A) : Permutation (sorted leb l) l.
Proof.
  induction l as [|x l IH]; simpl.
  - apply perm_nil.
  - eapply perm_trans; [apply insert_sorted_Permutation|].
    apply perm_skip, IH.
Qed.

Lemma insert_sorted_Sorted (x : A) (l : list A) :
  Sorted (fun a b => leb a b = true) l ->
  Sorted (fun a b => leb a b = true) (insert_sorted leb x l).
Proof.
  induction l as [|y l IH]; simpl; intros Hsorted.
  - repeat constructor.
  - destruct (leb x y) eqn:Hxy.
    + constructor; [assumption|]. constructor. assumption.
    + apply Sorted_inv in Hsorted. destruct Hsorted as [Hsorted Hhd].
      constructor; [apply IH; assumption|].
      destruct l as [|z l]; simpl.
      * constructor. destruct (leb_total x y); congruence.
      * destruct (leb x z).
        -- constructor. destruct (leb_total x y); congruence.
        -- constructor. apply HdRel_inv in Hhd. assumption.
Qed.

Lemma sorted_Sorted (l : list A) :
  Sorted (fun a b => leb a b = true) (sorted leb l).
Proof.
  induction l as [|x l IH]; simpl.
  - constructor.
  - apply insert_sorted_Sorted. assumption.
Qed.

End sorting.

Section distinct_facts.
Context {K : Type} `{KeyLaws K}.



End distinct_facts.

Section dict_more.
Context {K V : Type} `{KeyLaws K}.




End dict_more.





Lemma Sorted_map {A B : Type} (R : A -> A -> Prop) (R' : B -> B -> Prop)
    (f : A -> B) (l : list A) :
  (forall a b, R a b -> R' (f a) (f b)) ->
  Sorted R l -> Sorted R' (map f l).
Proof.
  intros Hf Hsorted.
  induction Hsorted as [|x l Hsorted IH Hhd]; simpl.
  - constructor.
  - constructor; [assumption|].
    destruct Hhd as [|y l Hxy]; simpl; constructor. apply Hf. assumption.
Qed.

(** *** The two table operations *)


Lemma sort_keys_ok (by_ : string) (cols : list string)
    (rws : list (list Pandas.cell)) :
  Forall (fun row => exists n, Pandas.row_get cols row by_ = Some (VInt n)) rws ->
  exists keyed,
    Pandas.sort_keys by_ cols rws = Some keyed
    /\ map snd keyed = rws
    /\ Forall (fun p => Pandas.row_get cols (snd p) by_ = Some (VInt (fst p)))
              keyed.
Proof.
  intros Hall.
  induction Hall as [|row rws [n Hn] _ (keyed & Hkeys & Hrows & Hcells)]; simpl.
  - exists []. repeat split. constructor.
  - exists ((n, row) :: keyed).
    unfold Pandas.sort_key. rewrite Hn, Hkeys. simpl.
    repeat split.
    + now rewrite Hrows.
    + constructor; assumption.
Qed.

(** Ordering by a column that occurs once and holds integers gives the
    same columns and the same rows, rearranged so that the integers do not
    decrease. *)
Lemma sort_values_ok (by_ : string) (df : Pandas.DataFrame) :
  count_occ string_dec (Pandas.columns df) by_ = 1%nat ->
  Forall (fun row =>
            exists n, Pandas.row_get (Pandas.columns df) row by_ = Some (VInt n))
         (Pandas.rows df) ->
  exists table runs,
    Pandas.sort_values by_ df = Ok table
    /\ Pandas.columns table = Pandas.columns df
    /\ Permutation (Pandas.rows table) (Pandas.rows df)
    /\ map (fun row => Pandas.row_get (Pandas.columns table) row by_)
           (Pandas.rows table)
       = map (fun n => Some (VInt n)) runs
    /\ Sorted Z.le runs.
Proof.
  intros Hcount Hcells.
  destruct (@sort_keys_ok by_ (Pandas.columns df) (Pandas.rows df) Hcells)
    as (keyed & Hkeys & Hrows & Hkeyed).
  set (leb := fun a b : Z * list Pandas.cell => Z.leb (fst a) (fst b)).
  assert (Htotal : forall a b, leb a b = true \/ leb b a = true).
  { intros a b. unfold leb.
    destruct (Z.leb_spec (fst a) (fst b)); [now left|].
    right. apply Z.leb_le. lia. }
  exists {| Pandas.columns := Pandas.columns df;
            Pandas.rows := map snd (sorted leb keyed) |},
         (map fst (sorted leb keyed)).
  unfold Pandas.sort_values. rewrite Hcount, Hkeys. simpl.
  repeat split.
  - rewrite <- Hrows. apply Permutation_map, sorted_Permutation.
  - rewrite !map_map. apply map_ext_in. intros p Hp.
    assert (Hall : Forall
      (fun p => Pandas.row_get (Pandas.columns df) (snd p) by_
                = Some (VInt (fst p))) (sorted leb keyed)).
    { rewrite Forall_forall in Hkeyed |- *. intros q Hq.
      apply Hkeyed.
      eapply Permutation_in; [apply sorted_Permutation | exact Hq]. }
    rewrite Forall_forall in Hall. apply Hall. assumption.
  - apply (Sorted_map (R := fun a b => leb a b = true)).
    + intros a b Hab. apply Z.leb_le. exact Hab.
    + apply sorted_Sorted. assumption.
Qed.

(** *** The records of a store *)

Local Open Scope string_scope.
Local Open Scope list_scope.





Section report.
Context {Model Agent : Type}.


End report.
Import Examples.


End ReportProps.

(** ** The stores a sweep builds are stores the report builder accepts *)

Module StoreProps.
Import Py Mesa BatchRunner Spec PyFacts SweepProps.
Local Open Scope string_scope.
Local Open Scope list_scope.


Section store_invariant.
Context {Model Agent : Type} `{ModelAPI Model Agent}.


Lemma preserves_ret {A : Type} (P : stores -> Prop) (a : A) :
  preserves P (ret a).
Proof. intros st out st' HP Hc. injection Hc as _ <-. exact HP. Qed.

Lemma preserves_bind {A B : Type} (P : stores -> Prop) (c : M A)
    (k : A -> M B) :
  preserves P c ->
  (forall a st st1, c st = (Ok a, st1) -> preserves P (k a)) ->
  preserves P (bind c k).
Proof.
  intros Hc Hk st out st' HP Hrun. unfold bind in Hrun.
  destruct (c st) as [[a|e|] st1] eqn:Hcst.
  - eapply Hk; [exact Hcst | eapply Hc; eassumption | exact Hrun].
  - injection Hrun as _ <-. eapply Hc; eassumption.
  - injection Hrun as _ <-. eapply Hc; eassumption.
Qed.

Lemma preserves_lift {A : Type} (P : stores -> Prop) (r : result A) :
  preserves P (lift r).
Proof. intros st out st' HP Hc. injection Hc as _ <-. exact HP. Qed.










(** When no reporter bears the name of an index column, the stores of a
    sweep meet what the report builder asks of a store. *)
Lemma well_keyed_model_store (self : batch_runner Model Agent) st :
  let params := dict_keys (parameter_values self) in
  well_keyed self st ->
  (forall var, In var (reporter_names (model_reporters self)) ->
               ~ In var (params ++ ["Run"])) ->
  (forall entry, In entry (model_vars st) ->
                 Spec.record_key params (fst entry))
  /\ (forall entry var,
        In entry (model_vars st) -> In var (dict_keys (snd entry)) ->
        ~ In var (params ++ ["Run"])).
Proof.
  intros params [Hmodel _] Hnames. rewrite Forall_forall in Hmodel. split.
  - intros entry Hentry. apply (Hmodel entry Hentry).
  - intros entry var Hentry Hvar. apply Hnames.
    apply (proj2 (Hmodel entry Hentry)). exact Hvar.
Qed.

End store_invariant.
End StoreProps.

(** ** Sweeps that run nothing or store nothing *)

Module SweepEdgeProps.
Import Py Mesa BatchRunner Spec PyFacts SweepProps StoreProps.

Section sweep_edges.
Context {Model Agent : Type} `{ModelAPI Model Agent}.

(** A sweep keeps whatever its runs keep. *)
Lemma preserves_run_all (P : stores -> Prop) fuel
    (self : batch_runner Model Agent) :
  (forall pv rc m, preserves P (run_iteration fuel self pv rc m)) ->
  preserves P (run_all fuel self).
Proof.
  intros Hiter. unfold run_all.
  apply preserves_bind; [|intros; apply preserves_ret].
  generalize (configurations self) as configs, 0%Z as rc.
  induction configs as [|pv configs IH]; intros rc; simpl.
  - apply preserves_ret.
  - apply preserves_bind; [apply preserves_lift | intros m _ _ _].
    apply preserves_bind; [|intros; apply IH].
    generalize (Z.to_nat (iterations self)) as n. revert rc m.
    intros rc m n. revert rc m.
    induction n as [|n IHn]; intros rc m; simpl.
    + apply preserves_ret.
    + apply preserves_bind; [apply Hiter | intros; apply IHn].
Qed.

Lemma run_configurations_without_runs fuel (self : batch_runner Model Agent)
    configs :
  Z.to_nat (iterations self) = 0%nat ->
  forall rc st,
    (forall out st',
       run_configurations fuel self configs rc st = (out, st') -> st' = st)
    /\ ((forall pv, In pv configs ->
           exists m,
             try_to_init_model self (configuration_kwargs self pv) = Ok m) ->
        run_configurations fuel self configs rc st = (Ok rc, st)).
Proof.
  intros Hzero.
  induction configs as [|pv configs IH]; intros rc st; simpl.
  - split.
    + intros out st' Hrun. injection Hrun as _ <-. reflexivity.
    + reflexivity.
  - rewrite Hzero. simpl. unfold bind at 1 3, lift.
    destruct (try_to_init_model self (configuration_kwargs self pv))
      as [m|e|] eqn:Hinit.
    + unfold bind, ret. simpl. destruct (IH rc st) as [Hsame Hok]. split.
      * exact Hsame.
      * intros Hall. apply Hok. intros pv' Hin. apply Hall. now right.
    + split.
      * intros out st' Hrun. injection Hrun as _ <-. reflexivity.
      * intros Hall. destruct (Hall pv (or_introl eq_refl)) as [m Hm].
        congruence.
    + split.
      * intros out st' Hrun. injection Hrun as _ <-. reflexivity.
      * intros Hall. destruct (Hall pv (or_introl eq_refl)) as [m Hm].
        congruence.
Qed.

(** X1. A parameter with an empty candidate sequence makes [run_all]
    return at once: no model is constructed, whatever the constructor
    would do, and the stores are left as they are. *)
Theorem run_all_with_empty_candidates_does_nothing :
  forall fuel (self : batch_runner Model Agent) st,
    In [] (dict_values (parameter_values self)) ->
    run_all fuel self st = (Ok tt, st).
Proof.
  intros fuel self st Hempty. unfold run_all, configurations.
  rewrite ExpanderProps.product_cartesian.
  rewrite (ExpanderProps.cartesian_empty_pool _ Hempty). reflexivity.
Qed.

(** X2. With [iterations] at 0 or below no run is made and nothing is
    stored, whatever the outcome; the model of every configuration is
    still constructed, and [run_all] returns when all constructions do. *)
Theorem run_all_without_iterations_stores_nothing :
  forall fuel (self : batch_runner Model Agent) st,
    (iterations self <= 0)%Z ->
    (forall out st', run_all fuel self st = (out, st') -> st' = st)
    /\ ((forall pv, In pv (configurations self) ->
           exists m,
             try_to_init_model self (configuration_kwargs self pv) = Ok m) ->
        run_all fuel self st = (Ok tt, st)).
Proof.
  intros fuel self st Hiters.
  assert (Hzero : Z.to_nat (iterations self) = 0%nat) by lia.
  destruct (@run_configurations_without_runs fuel self (configurations self)
              Hzero 0%Z st) as [Hsame Hok].
  unfold run_all. split.
  - intros out st' Hrun. unfold bind in Hrun.
    destruct (run_configurations fuel self (configurations self) 0 st)
      as [[rc|e|] st1] eqn:Hconfigs.
    + injection Hrun as _ <-. eapply Hsame. reflexivity.
    + injection Hrun as _ <-. eapply Hsame. reflexivity.
    + injection Hrun as _ <-. eapply Hsame. reflexivity.
  - intros Hall. rewrite (bind_ok _ _ _ (Hok Hall)). reflexivity.
Qed.

(** X3. Without model-level and without entity-level reporters [run_all]
    leaves the stores as they are, whatever its outcome: the models are
    constructed and run, and nothing is recorded. *)
Theorem run_all_without_reporters_stores_nothing :
  forall fuel (self : batch_runner Model Agent) st out st',
    reporters_truthy (model_reporters self) = false ->
    reporters_truthy (agent_reporters self) = false ->
    run_all fuel self st = (out, st') ->
    st' = st.
Proof.
  intros fuel self st out st' Hmodel Hagent Hrun.
  apply (@preserves_run_all (fun s => s = st) fuel self) with (st := st)
    (out := out); [|reflexivity|exact Hrun].
  intros pv rc m. unfold run_iteration. rewrite Hmodel, Hagent.
  apply preserves_bind; [apply preserves_lift | intros m' _ _ _].
  apply preserves_bind; [apply preserves_ret | intros _ _ _ _].
  apply preserves_bind; [apply preserves_ret | intros _ _ _ _].
  apply preserves_ret.
Qed.

End sweep_edges.
Import Examples.
Local Open Scope string_scope.
Local Open Scope list_scope.

(** A sweep whose only parameter has no candidate, on empty stores. *)
Lemma run_all_with_empty_candidates_does_nothing_witness :
  In [] (dict_values (parameter_values toy_sweep_no_candidates))
  /\ run_all 1000 toy_sweep_no_candidates no_stores = (Ok tt, no_stores).
Proof.
  assert (Hin : In [] (dict_values (parameter_values toy_sweep_no_candidates)))
    by (left; reflexivity).
  split; [exact Hin|].
  apply run_all_with_empty_candidates_does_nothing. exact Hin.
Defined.

(** The example sweep with [iterations] at 0: both constructions
    succeed, [run_all] returns and the stores stay empty. *)
Lemma run_all_without_iterations_stores_nothing_witness :
  (iterations toy_sweep_no_iterations <= 0)%Z
  /\ run_all 1000 toy_sweep_no_iterations no_stores = (Ok tt, no_stores).
Proof.
  assert (Hle : (iterations toy_sweep_no_iterations <= 0)%Z)
    by (intros Hgt; discriminate Hgt).
  split; [exact Hle|].
  apply (run_all_without_iterations_stores_nothing
           1000 toy_sweep_no_iterations no_stores Hle).
  intros pv [<-|[<-|[]]]; eexists; reflexivity.
Defined.

(** The example sweep without reporters leaves the empty stores empty. *)
Lemma run_all_without_reporters_stores_nothing_witness :
  reporters_truthy (model_reporters toy_sweep_silent) = false
  /\ reporters_truthy (agent_reporters toy_sweep_silent) = false
  /\ snd (run_all 1000 toy_sweep_silent no_stores) = no_stores.
Proof.
  split; [reflexivity|]. split; [reflexivity|].
  apply (run_all_without_reporters_stores_nothing
           1000 toy_sweep_silent no_stores
           (out := fst (run_all 1000 toy_sweep_silent no_stores))
           eq_refl eq_refl).
  apply surjective_pairing.
Defined.

End SweepEdgeProps.

(** ** The model is reused over the runs of a configuration *)

Module ReuseProps.
Import Py Mesa BatchRunner Spec PyFacts SweepProps.
Local Open Scope Z_scope.

Section reuse.
Context {Model Agent : Type} `{ModelAPI Model Agent}.

(** The test of the loop of [run_model]. *)
Lemma run_model_exit (self : batch_runner Model Agent) :
  forall fuel m m',
    run_model fuel self m = Ok m' ->
    running m' && (steps m' <? max_steps self) = false.
Proof.
  induction fuel as [|fuel IH]; intros m m' Hrun; simpl in Hrun;
    destruct (running m && (steps m <? max_steps self)) eqn:Hcond;
    try discriminate.
  - injection Hrun as <-. exact Hcond.
  - destruct (step m) as [m1| |]; try discriminate. simpl in Hrun.
    apply (IH m1 m' Hrun).
  - injection Hrun as <-. exact Hcond.
Qed.

Lemma run_model_stopped (self : batch_runner Model Agent) m :
  running m && (steps m <? max_steps self) = false ->
  forall fuel, run_model fuel self m = Ok m.
Proof.
  intros Hcond fuel. destruct fuel; simpl; rewrite Hcond; reflexivity.
Qed.

(** X4. The model the run driver returns fails the test of its loop, so
    running it again, with whatever fuel, returns it as it is without a
    step: the driver does not restart a model that has stopped or has
    reached the ceiling. *)
Theorem run_model_again_changes_nothing :
  forall fuel (self : batch_runner Model Agent) m m',
    run_model fuel self m = Ok m' ->
    running m' && (steps m' <? max_steps self) = false
    /\ forall fuel', run_model fuel' self m' = Ok m'.
Proof.
  intros fuel self m m' Hrun.
  pose proof (run_model_exit self fuel m Hrun) as Hcond.
  split; [exact Hcond | apply run_model_stopped; exact Hcond].
Qed.

(** The runs made on a model that fails the test of the loop: each one
    stores the record collected from that model, and no other key of the
    model-level store changes. *)
Lemma run_iterations_stopped fuel (self : batch_runner Model Agent) pv m
    record :
  running m && (steps m <? max_steps self) = false ->
  reporters_truthy (model_reporters self) = true ->
  collect_model_vars self m = Ok record ->
  forall n rc st rc' m' st',
    run_iterations fuel self pv n rc m st = (Ok (rc', m'), st') ->
    m' = m
    /\ (forall j, (j < n)%nat ->
          dict_get (pv ++ [VInt (rc + Z.of_nat j)]) (model_vars st')
          = Some record)
    /\ (forall key,
          (forall j, (j < n)%nat -> key <> pv ++ [VInt (rc + Z.of_nat j)]) ->
          dict_get key (model_vars st') = dict_get key (model_vars st)).
Proof.
  intros Hcond Htruthy Hrecord.
  induction n as [|n IH]; intros rc st rc' m' st' Hrun; simpl in Hrun.
  - unfold ret in Hrun. injection Hrun as _ <- <-.
    split; [reflexivity|]. split; [intros j Hj; lia | reflexivity].
  - apply bind_ok_inv in Hrun. destruct Hrun as (m1 & st1 & Hiter & Hrest).
    apply run_iteration_model_vars in Hiter. destruct Hiter as [Hm1 Hvars].
    rewrite (run_model_stopped self m Hcond) in Hm1. injection Hm1 as <-.
    rewrite Htruthy in Hvars. destruct Hvars as (record' & Hrecord' & Hst1).
    rewrite Hrecord in Hrecord'. injection Hrecord' as <-.
    apply IH in Hrest. destruct Hrest as (-> & Hlater & Hother).
    split; [reflexivity|]. split.
    + intros j Hj. destruct j as [|j].
      * rewrite Hother.
        -- rewrite Hst1, Z.add_0_r. apply dict_get_set_same.
        -- intros j' _ Heq. apply app_inj_tail in Heq.
           destruct Heq as [_ Heq]. injection Heq. lia.
      * replace (rc + Z.of_nat (S j)) with (rc + 1 + Z.of_nat j) by lia.
        apply Hlater. lia.
    + intros key Hkey. rewrite Hother.
      * rewrite Hst1. apply dict_get_set_other.
        specialize (Hkey 0%nat ltac:(lia)). rewrite Z.add_0_r in Hkey.
        exact Hkey.
      * intros j Hj.
        replace (rc + 1 + Z.of_nat j) with (rc + Z.of_nat (S j)) by lia.
        apply Hkey. lia.
Qed.

(** X5. The runs of one configuration are made on one model, which is not
    constructed again nor reset between them, and the driver leaves a
    model that fails its loop test as it is: when the runs of a
    configuration complete, with model-level reporters, the model-level
    store holds one and the same record under each of their run numbers,
    and the model they leave is the one the first run left. *)
Theorem runs_of_a_configuration_repeat_the_first_record :
  forall fuel (self : batch_runner Model Agent) pv n rc m st rc' m' st',
    run_iterations fuel self pv n rc m st = (Ok (rc', m'), st') ->
    reporters_truthy (model_reporters self) = true ->
    (exists record,
       forall j, (j < n)%nat ->
         dict_get (pv ++ [VInt (rc + Z.of_nat j)]) (model_vars st')
         = Some record)
    /\ ((0 < n)%nat -> run_model fuel self m = Ok m').
Proof.
  intros fuel self pv n rc m st rc' m' st' Hrun Htruthy.
  destruct n as [|n]; simpl in Hrun.
  - split; [exists []; intros j Hj; lia | intros Hn; lia].
  - apply bind_ok_inv in Hrun. destruct Hrun as (m1 & st1 & Hiter & Hrest).
    apply run_iteration_model_vars in Hiter. destruct Hiter as [Hm1 Hvars].
    rewrite Htruthy in Hvars. destruct Hvars as (record & Hrecord & Hst1).
    pose proof (run_model_exit self fuel m Hm1) as Hcond.
    destruct (@run_iterations_stopped fuel self pv m1 record Hcond Htruthy
                Hrecord n (rc + 1) st1 rc' m' st' Hrest)
      as (-> & Hlater & Hother).
    split; [|intros _; exact Hm1].
    exists record. intros j Hj. destruct j as [|j].
    + rewrite Hother.
      * rewrite Hst1, Z.add_0_r. apply dict_get_set_same.
      * intros j' _ Heq. apply app_inj_tail in Heq.
        destruct Heq as [_ Heq]. injection Heq. lia.
    + replace (rc + Z.of_nat (S j)) with (rc + 1 + Z.of_nat j) by lia.
      apply Hlater. lia.
Qed.

End reuse.
Import Examples.
Local Open Scope string_scope.
Local Open Scope list_scope.

(** The toy model halts after three steps; run again it is returned as
    it is. *)
Lemma run_model_again_changes_nothing_witness :
  run_model 1000 toy_sweep fresh_toy
  = Ok (toy_step (toy_step (toy_step fresh_toy)))
  /\ forall fuel',
       run_model fuel' toy_sweep (toy_step (toy_step (toy_step fresh_toy)))
       = Ok (toy_step (toy_step (toy_step fresh_toy))).
Proof.
  assert (Hrun : run_model 1000 toy_sweep fresh_toy
                 = Ok (toy_step (toy_step (toy_step fresh_toy))))
    by reflexivity.
  split; [exact Hrun|].
  apply (run_model_again_changes_nothing _ _ _ Hrun).
Defined.

(** Three runs of the configuration a = 1 on the toy model. *)
Lemma runs_of_a_configuration_repeat_the_first_record_witness :
  exists m' st',
    run_iterations 1000 toy_sweep [VInt 1] 3 0 fresh_toy no_stores
    = (Ok (3, m'), st')
    /\ reporters_truthy (model_reporters toy_sweep) = true
    /\ (exists record,
          forall j, (j < 3)%nat ->
            dict_get ([VInt 1] ++ [VInt (0 + Z.of_nat j)]) (model_vars st')
            = Some record)
    /\ run_model 1000 toy_sweep fresh_toy = Ok m'.
Proof.
  exists (toy_step (toy_step (toy_step fresh_toy))).
  exists (snd (run_iterations 1000 toy_sweep [VInt 1] 3 0 fresh_toy no_stores)).
  assert (Hrun :
    run_iterations 1000 toy_sweep [VInt 1] 3 0 fresh_toy no_stores
    = (Ok (3, toy_step (toy_step (toy_step fresh_toy))),
       snd (run_iterations 1000 toy_sweep [VInt 1] 3 0 fresh_toy no_stores)))
    by (vm_compute; reflexivity).
  split; [exact Hrun|]. split; [reflexivity|].
  destruct (runs_of_a_configuration_repeat_the_first_record
              _ _ _ _ _ _ _ Hrun eq_refl) as [Hrecord Hmodel].
  split; [exact Hrecord | apply Hmodel; lia].
Defined.

End ReuseProps.

(** ** The observation collectors *)

Module CollectorProps.
Import Py Mesa BatchRunner Spec PyFacts SweepProps.

Section reporters_facts.
Context {X : Type}.

Lemma run_reporters_spec (x : X) (items : dict string (X -> result value)) :
  forall vars out,
    NoDup (dict_keys vars ++ dict_keys items) ->
    run_reporters items x vars = Ok out <->
    exists new, out = vars ++ new /\ Forall2 (reported x) items new.
Proof.
  induction items as [|[name f] items IH]; simpl; intros vars out Hnd.
  - split.
    + intros Hrun. injection Hrun as <-. exists []. split.
      * now rewrite app_nil_r.
      * constructor.
    + intros (new & -> & Hall). inversion Hall. now rewrite app_nil_r.
  - assert (Hfresh : ~ In name (dict_keys vars)).
    { intros Hin. apply NoDup_remove_2 in Hnd. apply Hnd.
      apply in_app_iff. now left. }
    assert (Hnd' : forall v,
      NoDup (dict_keys (dict_set name v vars) ++ dict_keys items)).
    { intros v. rewrite dict_set_fresh by assumption.
      unfold dict_keys. rewrite map_app. simpl. rewrite <- app_assoc.
      exact Hnd. }
    split.
    + intros Hrun. destruct (f x) as [v| |] eqn:Hf; try discriminate.
      simpl in Hrun. apply (IH _ _ (Hnd' v)) in Hrun.
      destruct Hrun as (new & -> & Hall).
      exists ((name, v) :: new). split.
      * rewrite dict_set_fresh by assumption. now rewrite <- app_assoc.
      * constructor; [split; [reflexivity | exact Hf] | exact Hall].
    + intros (new & -> & Hall).
      inversion Hall as [|item [name' v] items' new' [Hname Hf] Hall']; subst.
      simpl in Hname, Hf. subst name'. rewrite Hf. simpl.
      apply (IH _ _ (Hnd' v)). exists new'. split; [|exact Hall'].
      rewrite dict_set_fresh by assumption. now rewrite <- app_assoc.
Qed.

Lemma run_reporters_first_exception (x : X)
    (pre : dict string (X -> result value)) name f post e :
  Forall (fun item => exists v, snd item x = Ok v) pre ->
  f x = Raised e ->
  forall vars, run_reporters (pre ++ (name, f) :: post) x vars = Raised e.
Proof.
  intros Hpre Hf.
  induction Hpre as [|[name' f'] pre [v Hv] _ IH]; intros vars; simpl.
  - now rewrite Hf.
  - simpl in Hv. rewrite Hv. simpl. apply IH.
Qed.

End reporters_facts.

Section key_folds.
Context {K : Type} `{KeyLaws K}.



End key_folds.

Section collectors.
Context {Model Agent : Type} `{ModelAPI Model Agent}.

(** X6. [collect_model_vars] returns exactly when every model-level
    reporter returns on the model, and the record it returns lists the
    names of the reporters in the order of the mapping, each with the
    value its reporter gave. *)
Theorem collect_model_vars_lists_every_reporter :
  forall (self : batch_runner Model Agent) reps m record,
    model_reporters self = Some reps ->
    NoDup (dict_keys reps) ->
    collect_model_vars self m = Ok record <->
    Forall2 (reported m) reps record.
Proof.
  intros self reps m record Hreps Hnd.
  unfold collect_model_vars, reporter_items. rewrite Hreps. simpl.
  rewrite (run_reporters_spec m reps [] record) by exact Hnd.
  simpl. split.
  - intros (new & -> & Hall). exact Hall.
  - intros Hall. exists record. split; [reflexivity | exact Hall].
Qed.

(** X7. When a model-level reporter raises and the reporters before it in
    the mapping return, [collect_model_vars] raises that exception; the
    reporters after it are not what decides. *)
Theorem collect_model_vars_raises_first_exception :
  forall (self : batch_runner Model Agent) pre name f post m e,
    model_reporters self = Some (pre ++ (name, f) :: post) ->
    Forall (fun item => exists v, snd item m = Ok v) pre ->
    f m = Raised e ->
    collect_model_vars self m = Raised e.
Proof.
  intros self pre name f post m e Hreps Hpre Hf.
  unfold collect_model_vars, reporter_items. rewrite Hreps. simpl.
  apply run_reporters_first_exception; assumption.
Qed.





(** X9. An entity whose identifier does not hash (a list or a
    dictionary) makes [collect_agent_vars] raise a [TypeError], once the
    entities before it have been recorded and its own reporters have
    returned. *)
Theorem collect_agent_vars_rejects_unhashable_identifier :
  forall (self : batch_runner Model Agent) reps m pre a post,
    agent_reporters self = Some reps ->
    agents m = pre ++ a :: post ->
    Forall (fun b => hashable (unique_id b) = true
                     /\ exists record, run_reporters reps b [] = Ok record)
           pre ->
    (exists record, run_reporters reps a [] = Ok record) ->
    hashable (unique_id a) = false ->
    collect_agent_vars self m = Raised TypeError.
Proof.
  intros self reps m pre a post Hreps Hagents Hpre [record Hrecord] Hid.
  unfold collect_agent_vars. rewrite Hagents. clear Hagents.
  generalize (@nil (value * dict string value)) as acc.
  induction Hpre as [|b pre [Hb [rb Hrb]] _ IH]; intros acc; simpl;
    unfold reporter_items; rewrite Hreps; simpl.
  - rewrite Hrecord. simpl. now rewrite Hid.
  - rewrite Hrb. simpl. rewrite Hb. apply IH.
Qed.

End collectors.
Import Examples.
Local Open Scope string_scope.
Local Open Scope list_scope.

(** The model-level record of the toy model before its first step. *)
Lemma collect_model_vars_lists_every_reporter_witness :
  model_reporters toy_sweep = Some [("steps", report_steps)]
  /\ NoDup (dict_keys [("steps", report_steps)])
  /\ (collect_model_vars toy_sweep fresh_toy = Ok [("steps", VInt 0)]
      <-> Forall2 (reported fresh_toy)
                  [("steps", report_steps)] [("steps", VInt 0)]).
Proof.
  assert (Hnd : NoDup (dict_keys [("steps", report_steps)]))
    by (constructor; [intros []|constructor]).
  split; [reflexivity|]. split; [exact Hnd|].
  apply (collect_model_vars_lists_every_reporter
           toy_sweep fresh_toy [("steps", VInt 0)] eq_refl Hnd).
Defined.

(** The second of three reporters raises. *)
Lemma collect_model_vars_raises_first_exception_witness :
  model_reporters toy_sweep_failing_second
  = Some ([("steps", report_steps)]
          ++ ("bad", failing_reporter) :: [("later", report_steps)])
  /\ Forall (fun item : string * (toy_model -> result value) =>
               exists v, snd item fresh_toy = Ok v)
            [("steps", report_steps)]
  /\ failing_reporter fresh_toy = Raised (OtherError "ZeroDivisionError")
  /\ collect_model_vars toy_sweep_failing_second fresh_toy
     = Raised (OtherError "ZeroDivisionError").
Proof.
  assert (Hpre : Forall (fun item : string * (toy_model -> result value) =>
                           exists v, snd item fresh_toy = Ok v)
                        [("steps", report_steps)])
    by (constructor; [eexists; reflexivity | constructor]).
  split; [reflexivity|]. split; [exact Hpre|]. split; [reflexivity|].
  apply (@collect_model_vars_raises_first_exception
           toy_model value
           toy_sweep_failing_second [("steps", report_steps)] "bad"
           failing_reporter [("later", report_steps)] fresh_toy
           (OtherError "ZeroDivisionError") eq_refl Hpre eq_refl).
Defined.


(** An entity identified by a list, after one identified by 1. *)
Lemma collect_agent_vars_rejects_unhashable_identifier_witness :
  agent_reporters crowd_sweep = Some [("id", report_id)]
  /\ agents (Crowd [VInt 1; VList []; VInt 2])
     = [VInt 1] ++ VList [] :: [VInt 2]
  /\ hashable (VList []) = false
  /\ collect_agent_vars crowd_sweep (Crowd [VInt 1; VList []; VInt 2])
     = Raised TypeError.
Proof.
  split; [reflexivity|]. split; [reflexivity|]. split; [reflexivity|].
  apply (collect_agent_vars_rejects_unhashable_identifier
           (H := crowd_api) crowd_sweep (reps := [("id", report_id)])
           (Crowd [VInt 1; VList []; VInt 2])
           (pre := [VInt 1]) (VList []) [VInt 2] eq_refl eq_refl).
  - constructor; [|constructor].
    split; [reflexivity | eexists; reflexivity].
  - eexists; reflexivity.
  - reflexivity.
Defined.

End CollectorProps.

(** ** The parameter space and the keyword arguments of a configuration *)

Module InitProps.
Import Py Mesa BatchRunner Spec PyFacts.


Lemma cartesian_singletons {A : Type} (l : list A) :
  cartesian (map (fun v => [v]) l) = [l].
Proof.
  induction l as [|v l IH]; simpl.
  - reflexivity.
  - now rewrite IH.
Qed.


Section init.
Context {Model Agent : Type} `{ModelAPI Model Agent}.

(** X10. A parameter space whose values are all single values (numbers,
    [None], strings) has exactly one configuration, which gives every
    parameter its value: a string is one value, not its characters. *)
Theorem single_values_give_one_configuration :
  forall (cls : model_class Model) variable_parameters fixed iters steps
         (mrep : reporters Model) (arep : reporters Agent) bar,
    Forall (fun pv => has_iter (snd pv) = false \/ is_str (snd pv) = true)
           variable_parameters ->
    configurations
      (fst (init cls variable_parameters fixed iters steps mrep arep bar))
    = [map snd variable_parameters].
Proof.
  intros cls variable_parameters fixed iters steps mrep arep bar Hall.
  unfold configurations, init. simpl.
  rewrite ExpanderProps.product_cartesian.
  unfold dict_values. rewrite map_map. simpl.
  rewrite <- cartesian_singletons, map_map. f_equal.
  apply map_ext_in. intros [name v] Hin.
  rewrite Forall_forall in Hall. specialize (Hall _ Hin). simpl in *.
  unfold make_iterable.
  destruct Hall as [Hiter|Hstr].
  - rewrite Hiter. reflexivity.
  - rewrite Hstr, andb_false_r. reflexivity.
Qed.


End init.
Import Examples.
Local Open Scope string_scope.
Local Open Scope list_scope.

(** A number and a string as the values of two parameters. *)
Lemma single_values_give_one_configuration_witness :
  Forall (fun pv : string * value =>
            has_iter (snd pv) = false \/ is_str (snd pv) = true)
         single_values
  /\ configurations (runner cls_a single_values None 3 None None)
     = [[VInt 1; VStr "abc"]].
Proof.
  assert (Hsingle : Forall (fun pv : string * value =>
                              has_iter (snd pv) = false
                              \/ is_str (snd pv) = true)
                           single_values)
    by (constructor; [left; reflexivity|];
        constructor; [right; reflexivity | constructor]).
  split; [exact Hsingle|].
  exact (single_values_give_one_configuration
           cls_a None 3 1000 None None true Hsingle).
Defined.


End InitProps.

(** ** More on the report table *)

Module TableProps.
Import Py Mesa BatchRunner Spec PyFacts ReportProps.
Local Open Scope string_scope.
Local Open Scope list_scope.

Lemma combine_firstn {A B : Type} (l : list A) :
  forall k : list B, combine l (firstn (List.length l) k) = combine l k.
Proof.
  induction l as [|x l IH]; intros [|y k]; simpl; try reflexivity.
  now rewrite IH.
Qed.

Lemma sort_keys_Some (by_ : string) (cols : list string)
    (rws : list (list Pandas.cell)) :
  forall keyed,
    Pandas.sort_keys by_ cols rws = Some keyed ->
    map snd keyed = rws
    /\ Forall (fun row => exists n,
                 Pandas.row_get cols row by_ = Some (VInt n)) rws.
Proof.
  induction rws as [|row rws IH]; simpl; intros keyed Hkeys.
  - injection Hkeys as <-. split; constructor.
  - unfold Pandas.sort_key in Hkeys.
    destruct (Pandas.row_get cols row by_) as [[|n|? |? |?]|] eqn:Hcell;
      try discriminate.
    destruct (Pandas.sort_keys by_ cols rws) as [keyed'|]; try discriminate.
    injection Hkeys as <-. destruct (IH keyed' eq_refl) as [Hrows Hcells].
    simpl. split; [now rewrite Hrows|]. constructor; [eauto | exact Hcells].
Qed.

(** A table that [sort_values] returns comes from a table with the label
    once among its columns and an integer under it in every row. *)
Lemma sort_values_inv (by_ : string) (df table : Pandas.DataFrame) :
  Pandas.sort_values by_ df = Ok table ->
  count_occ string_dec (Pandas.columns df) by_ = 1%nat
  /\ Forall (fun row => exists n,
               Pandas.row_get (Pandas.columns df) row by_ = Some (VInt n))
            (Pandas.rows df).
Proof.
  unfold Pandas.sort_values. intros Hsort.
  destruct (count_occ string_dec (Pandas.columns df) by_) as [|[|n]];
    try discriminate.
  destruct (Pandas.sort_keys by_ (Pandas.columns df) (Pandas.rows df))
    as [keyed|] eqn:Hkeys; try discriminate.
  split; [reflexivity|]. apply (sort_keys_Some _ _ _ Hkeys).
Qed.

Section table.
Context {Model Agent : Type}.

(** X12. The report of an empty store is a [KeyError], the table built
    from no record having none of the index columns: asking for a report
    before any run has stored a record gives no empty table.  This holds
    of the model-level report of a runner with model-level reporters, and
    of the entity-level report of one with entity-level reporters. *)
Theorem report_of_empty_store_is_key_error :
  forall (self : batch_runner Model Agent),
    (exists label, prepare_report_table self [] = Raised (KeyError label))
    /\ (forall st,
          reporters_truthy (model_reporters self) = true ->
          model_vars st = [] ->
          exists label,
            get_model_vars_dataframe self st = Raised (KeyError label))
    /\ (forall st,
          reporters_truthy (agent_reporters self) = true ->
          agent_vars st = [] ->
          exists label,
            get_agent_vars_dataframe self st = Raised (KeyError label)).
Proof.
  intros self.
  assert (Hempty : prepare_report_table self []
    = Raised (KeyError (hd "Run" (dict_keys (parameter_values self) ++ ["Run"])))).
  { unfold prepare_report_table.
    destruct (dict_keys (parameter_values self)); reflexivity. }
  split; [eexists; exact Hempty|]. split.
  - intros st _ Hst. unfold get_model_vars_dataframe. rewrite Hst.
    eexists; exact Hempty.
  - intros st _ Hst. unfold get_agent_vars_dataframe. rewrite Hst.
    eexists; exact Hempty.
Qed.

(** X13. The report reads of a key the values of the parameters and the
    run number, and nothing after them: the identifier of an entity-level
    record is in no cell of the table, and stores that differ in
    identifiers only have the same report. *)
Theorem report_ignores_entity_identifier :
  forall (self : batch_runner Model Agent) (vars_dict : store),
    let params := dict_keys (parameter_values self) in
    prepare_report_table self (map (index_part params) vars_dict)
    = prepare_report_table self vars_dict
    /\ (forall other : store,
          map (index_part params) other = map (index_part params) vars_dict ->
          prepare_report_table self other
          = prepare_report_table self vars_dict).
Proof.
  intros self vars_dict params.
  assert (Hcut : forall vars : store,
    prepare_report_table self (map (index_part params) vars)
    = prepare_report_table self vars).
  { intros vars. unfold prepare_report_table. fold params.
    rewrite map_map.
    replace (map (fun x => dict_update
                    (dict_of_pairs
                       (combine (params ++ ["Run"])
                                (fst (index_part params x))))
                    (snd (index_part params x))) vars)
      with (map (fun kv => dict_update
                    (dict_of_pairs (combine (params ++ ["Run"]) (fst kv)))
                    (snd kv)) vars); [reflexivity|].
    apply map_ext. intros [key record]. unfold index_part. cbn [fst snd].
    replace (S (List.length params))
      with (List.length (params ++ ["Run"]))
      by (rewrite length_app; simpl; lia).
    now rewrite combine_firstn. }
  split; [apply Hcut|].
  intros other Hsame. rewrite <- (Hcut other), Hsame. apply Hcut.
Qed.

(** X14. Whenever the report builder returns a table, the table has one
    row for each record of the store and one cell in every row for each
    column, and its columns begin with the index columns: the names of
    the parameters in their order, then "Run". *)
Theorem report_table_has_a_row_per_record :
  forall (self : batch_runner Model Agent) (vars_dict : store) table,
    prepare_report_table self vars_dict = Ok table ->
    let index_cols := dict_keys (parameter_values self) ++ ["Run"] in
    List.length (Pandas.rows table) = List.length vars_dict
    /\ Forall (fun row => List.length row = List.length (Pandas.columns table))
              (Pandas.rows table)
    /\ firstn (List.length index_cols) (Pandas.columns table) = index_cols.
Proof.
  intros self vars_dict table Hreport index_cols.
  unfold prepare_report_table in Hreport. fold index_cols in Hreport.
  unfold rbind in Hreport.
  destruct (Pandas.select _ _) as [selected| |] eqn:Hselect; try discriminate.
  unfold Pandas.select in Hselect.
  destruct (find _ _); try discriminate. injection Hselect as Hselected.
  destruct (sort_values_inv _ _ Hreport) as [Hcount Hcells].
  destruct (sort_values_ok "Run" selected Hcount Hcells)
    as (table' & runs & Hsort & Hcols & Hperm & Hruns & Hsorted).
  rewrite Hreport in Hsort. injection Hsort as <-.
  rewrite Hcols. rewrite <- Hselected in *. simpl in *.
  repeat split.
  - rewrite (Permutation_length Hperm). now rewrite !length_map.
  - apply (Permutation_Forall (Permutation_sym Hperm)).
    apply Forall_forall. intros row Hrow. apply in_map_iff in Hrow.
    destruct Hrow as (row0 & <- & _). now rewrite length_map.
  - rewrite firstn_app, Nat.sub_diag, firstn_all. simpl.
    now rewrite app_nil_r.
Qed.

End table.
(** *** Orders and sorting *)


Section sorted_unique.
Context {A : Type} (leb : A -> A -> bool).
Hypothesis leb_total : forall a b, leb a b = true \/ leb b a = true.
Hypothesis leb_trans :
  forall a b c, leb a b = true -> leb b c = true -> leb a c = true.




End sorted_unique.






(** *** The table of a store of record keys *)


Section closed_form.
Context {Model Agent : Type}.



End closed_form.
Import Examples.

(** The model-level report of the example sweep before any run. *)
Lemma report_of_empty_store_is_key_error_witness :
  reporters_truthy (model_reporters toy_sweep) = true
  /\ model_vars no_stores = []
  /\ exists label,
       get_model_vars_dataframe toy_sweep no_stores = Raised (KeyError label).
Proof.
  split; [reflexivity|]. split; [reflexivity|].
  exact (proj1 (proj2 (report_of_empty_store_is_key_error toy_sweep))
               no_stores eq_refl eq_refl).
Defined.

(** Two entity-level stores that differ in the identifiers only. *)
Lemma report_ignores_entity_identifier_witness :
  map (index_part ["a"]) entity_store_renamed
  = map (index_part ["a"]) entity_store
  /\ prepare_report_table toy_sweep entity_store_renamed
     = prepare_report_table toy_sweep entity_store.
Proof.
  split; [reflexivity|].
  exact (proj2 (report_ignores_entity_identifier toy_sweep entity_store)
               entity_store_renamed eq_refl).
Defined.

(** The report of [shuffled_store]: two records, two rows of four cells,
    under columns that begin with a, Run. *)
Lemma report_table_has_a_row_per_record_witness :
  exists table,
    prepare_report_table toy_sweep shuffled_store = Ok table
    /\ List.length (Pandas.rows table) = List.length shuffled_store
    /\ Forall (fun row => List.length row = List.length (Pandas.columns table))
              (Pandas.rows table)
    /\ firstn 2 (Pandas.columns table) = ["a"; "Run"].
Proof.
  exists {| Pandas.columns := ["a"; "Run"; "b"; "z"];
            Pandas.rows :=
              [[Some (VInt 1); Some (VInt 1); Some (VInt 0); None];
               [Some (VInt 1); Some (VInt 3); None; Some (VInt 0)]] |}.
  assert (Hok : prepare_report_table toy_sweep shuffled_store
    = Ok {| Pandas.columns := ["a"; "Run"; "b"; "z"];
            Pandas.rows :=
              [[Some (VInt 1); Some (VInt 1); Some (VInt 0); None];
               [Some (VInt 1); Some (VInt 3); None; Some (VInt 0)]] |})
    by reflexivity.
  destruct (report_table_has_a_row_per_record toy_sweep shuffled_store Hok)
    as (Hrows & Hwidth & Hfirst).
  split; [exact Hok|]. split; [exact Hrows|].
  split; [exact Hwidth | exact Hfirst].
Defined.


End TableProps.

(** ** From the sweep to the report *)

Module SweepReportProps.
Import Py Mesa BatchRunner Spec PyFacts SweepProps StoreProps ReportProps.
Import TableProps.
Local Open Scope string_scope.
Local Open Scope list_scope.





Section sweep_report.
Context {Model Agent : Type} `{ModelAPI Model Agent}.





End sweep_report.
Import Examples.



End SweepReportProps.

(** ** Entity-level records and their run *)

Module EntityKeyProps.
Import Py Mesa BatchRunner Spec PyFacts SweepProps StoreProps SweepEdgeProps.
Local Open Scope string_scope.
Local Open Scope list_scope.

Lemma removelast_entity_key (pv : list value) (rc : Z) (agent_id : value) :
  removelast (pv ++ [VInt rc; agent_id]) = pv ++ [VInt rc].
Proof.
  replace (pv ++ [VInt rc; agent_id]) with ((pv ++ [VInt rc]) ++ [agent_id])
    by (rewrite <- app_assoc; reflexivity).
  apply removelast_last.
Qed.

Section entity_keys.
Context {Model Agent : Type} `{ModelAPI Model Agent}.

Lemma store_agent_vars_extend pv rc items :
  forall st out st',
    entity_keys_extend_model_keys st ->
    In (pv ++ [VInt rc]) (dict_keys (model_vars st)) ->
    store_agent_vars pv rc items st = (out, st') ->
    entity_keys_extend_model_keys st'.
Proof.
  induction items as [|[agent_id reports] items IH]; simpl;
    intros st out st' Hst Hmodel Hrun.
  - injection Hrun as _ <-. exact Hst.
  - unfold bind, set_agent_vars in Hrun.
    destruct (forallb hashable (pv ++ [VInt rc; agent_id])).
    + eapply IH; [| |exact Hrun]; simpl.
      * intros key Hin. simpl in *.
        apply dict_keys_set_In in Hin. destruct Hin as [->|Hin].
        -- rewrite removelast_entity_key. exact Hmodel.
        -- apply Hst. exact Hin.
      * exact Hmodel.
    + injection Hrun as _ <-. exact Hst.
Qed.

Lemma run_iteration_extend fuel (self : batch_runner Model Agent) pv rc m :
  reporters_truthy (model_reporters self) = true ->
  preserves entity_keys_extend_model_keys (run_iteration fuel self pv rc m).
Proof.
  intros Htruthy st out st' Hst Hrun.
  unfold run_iteration, bind, lift, ret in Hrun. rewrite Htruthy in Hrun.
  destruct (run_model fuel self m) as [m'|e|];
    try (injection Hrun as _ <-; exact Hst).
  destruct (collect_model_vars self m') as [record|e|];
    try (injection Hrun as _ <-; exact Hst).
  unfold set_model_vars in Hrun.
  destruct (forallb hashable (pv ++ [VInt rc]));
    try (injection Hrun as _ <-; exact Hst).
  set (st1 := {| model_vars := dict_set (pv ++ [VInt rc]) record (model_vars st);
                 agent_vars := agent_vars st |}) in *.
  assert (Hst1 : entity_keys_extend_model_keys st1).
  { intros key Hin. simpl in *. apply dict_keys_set_incl. apply Hst. exact Hin. }
  assert (Hkey : In (pv ++ [VInt rc]) (dict_keys (model_vars st1))).
  { simpl. apply dict_keys_set_In. now left. }
  destruct (reporters_truthy (agent_reporters self)).
  - destruct (collect_agent_vars self m') as [items|e|];
      try (injection Hrun as _ <-; exact Hst1).
    destruct (store_agent_vars pv rc items st1) as [[u|e|] st2] eqn:Hstore;
      apply (store_agent_vars_extend _ _ _ Hst1 Hkey) in Hstore;
      injection Hrun as _ <-; exact Hstore.
  - injection Hrun as _ <-. exact Hst1.
Qed.

(** X18. With model-level reporters, whatever the outcome of [run_all],
    every entity-level record belongs to a run that has its model-level
    record: its key without the entity's identifier is a key of the
    model-level store. *)
Theorem entity_records_have_a_model_record :
  forall fuel (self : batch_runner Model Agent) st out st',
    reporters_truthy (model_reporters self) = true ->
    entity_keys_extend_model_keys st ->
    run_all fuel self st = (out, st') ->
    entity_keys_extend_model_keys st'.
Proof.
  intros fuel self st out st' Htruthy Hst Hrun.
  eapply (@preserves_run_all _ _ _ entity_keys_extend_model_keys fuel self);
    [|exact Hst|exact Hrun].
  intros pv rc m. apply run_iteration_extend. exact Htruthy.
Qed.

End entity_keys.
Import Examples.

(** The example sweep, from empty stores. *)
Lemma entity_records_have_a_model_record_witness :
  reporters_truthy (model_reporters toy_sweep) = true
  /\ entity_keys_extend_model_keys no_stores
  /\ entity_keys_extend_model_keys (snd (run_all 1000 toy_sweep no_stores)).
Proof.
  assert (Hst : entity_keys_extend_model_keys no_stores)
    by (intros key []).
  split; [reflexivity|]. split; [exact Hst|].
  apply (@entity_records_have_a_model_record
           toy_model value toy_api 1000%nat toy_sweep no_stores
           (fst (run_all 1000 toy_sweep no_stores))
           (snd (run_all 1000 toy_sweep no_stores)) eq_refl Hst).
  apply surjective_pairing.
Defined.

End EntityKeyProps.

(** ** The fallback and the last parameter *)

Module FallbackProps.
Import Py Mesa BatchRunner Spec PyFacts ConstructorProps.

Section dict_set_facts.
Context {K V : Type} `{KeyLaws K}.

Lemma dict_set_twice (k : K) (v w : V) (d : dict K V) :
  dict_set k w (dict_set k v d) = dict_set k w d.
Proof.
  induction d as [|[k' v'] d IH]; simpl.
  - now rewrite key_eqb_refl.
  - destruct (key_eqb k k') eqn:Hk; simpl; rewrite Hk.
    + reflexivity.
    + now rewrite IH.
Qed.

End dict_set_facts.

Section fallback.
Context {Model Agent : Type} `{ModelAPI Model Agent}.

(** X19. When the fallback is taken, the fixed parameters are assigned,
    as one dictionary, to the name of the last parameter of the
    constructor in the keyword arguments of the configuration.  A value
    the configuration gives under that name is replaced: configurations
    that differ in that value only, and both reach the fallback, build
    the same model. *)
Theorem fallback_replaces_the_value_of_the_last_parameter :
  forall (self : batch_runner Model Agent) variable_params front last_arg v,
    fixed_values self <> [] ->
    init_signature (model_cls self) = front ++ [last_arg] ->
    existsb (param_kind_eqb (p_kind last_arg)) valid_types = true ->
    instantiate (model_cls self)
      (dict_update variable_params (fixed_values self)) = Raised TypeError ->
    instantiate (model_cls self)
      (dict_update (dict_set (p_name last_arg) v variable_params)
                   (fixed_values self)) = Raised TypeError ->
    exists kwargs,
      dict_get (p_name last_arg) kwargs = Some (VDict (fixed_values self))
      /\ try_to_init_model self variable_params
         = instantiate (model_cls self) kwargs
      /\ try_to_init_model self (dict_set (p_name last_arg) v variable_params)
         = instantiate (model_cls self) kwargs.
Proof.
  intros self variable_params front last_arg v Hfixed Hsig Hkind Hfirst Hsecond.
  exists (dict_set (p_name last_arg) (VDict (fixed_values self)) variable_params).
  split; [apply dict_get_set_same|]. split.
  - rewrite (try_fallback self variable_params front last_arg Hfixed Hfirst Hsig).
    now rewrite Hkind.
  - rewrite (try_fallback self _ front last_arg Hfixed Hsecond Hsig).
    rewrite Hkind. now rewrite dict_set_twice.
Qed.

End fallback.

Import Examples.
Local Open Scope string_scope.
Local Open Scope list_scope.

(** The constructor [(self, a)] with the fixed parameters z: 7: the
    configurations a = 1 and a = 2 both build the model of a = (z: 7). *)
Lemma fallback_replaces_the_value_of_the_last_parameter_witness :
  try_to_init_model toy_sweep_overridden [("a", VInt 1)]
  = Ok {| toy_args := [("a", VDict [("z", VInt 7)])];
          toy_steps := 0; toy_halt := 3 |}
  /\ exists kwargs,
       dict_get "a" kwargs = Some (VDict [("z", VInt 7)])
       /\ try_to_init_model toy_sweep_overridden [("a", VInt 1)]
          = instantiate cls_a kwargs
       /\ try_to_init_model toy_sweep_overridden [("a", VInt 2)]
          = instantiate cls_a kwargs.
Proof.
  split; [reflexivity|].
  apply (@fallback_replaces_the_value_of_the_last_parameter
           toy_model value toy_sweep_overridden [("a", VInt 1)]
           [self_param] (required "a" POSITIONAL_OR_KEYWORD) (VInt 2));
    solve [reflexivity | discriminate].
Defined.

End FallbackProps.
